(** * q2-cutadapt: the plugin registration and its parameter schemas

    The development embeds [q2_cutadapt/plugin_setup.py]: the [Plugin]
    object, the four [register_function] calls with their input, parameter
    and output schemas and documentation strings, and the element tests of
    the parameter types used there.  The adapter functions that the
    registrations point at ([q2_cutadapt._trim], [q2_cutadapt._demux]) are
    absent from the sources; where a property speaks about them they are
    modelled from the specification, and marked so. *)

From Stdlib Require Import ZArith QArith Lia.
From stdpp Require Import gmap strings list fin_maps pretty.

Set Warnings "-register-all".

Local Open Scope Z_scope.
Local Open Scope string_scope.
Local Open Scope list_scope.

(** ** Python string literals *)

(** The double-quote character inside a Python literal. *)
Definition dq : string := String (Ascii.ascii_of_nat 34) EmptyString.

(** Adjacent Python string literals are concatenated by the parser. *)
Definition lit (pieces : list string) : string :=
  foldr String.append EmptyString pieces.

(** ** Values passed to an action *)

Inductive column_type := Categorical.

(** A metadata column maps sample ids to values; a call passes Python
    integers, floats (the finite ones are rationals), booleans, strings,
    lists and metadata columns. *)
Inductive pyvalue :=
| PyInt (z : Z)
| PyFloat (q : Q)
| PyBool (b : bool)
| PyStr (s : string)
| PyList (l : list pyvalue)
| PyColumn (c : column_type) (series : list (string * string)).

(** The number a value stands for, if it is one.  [True] and [False] are
    not numbers for the framework. *)
Definition as_real (v : pyvalue) : option Q :=
  match v with
  | PyInt z => Some (inject_Z z)
  | PyFloat q => Some q
  | _ => None
  end.

(** ** The type language of [qiime2.plugin] used by the registrations *)

Inductive primitive := Int | Float | Str | Bool.

(** Modelled from the spec: the framework's [Range] predicate, imported by
    plugin_setup.py and defined outside this repository.  The spec names
    the checks it expresses: "error rate in [0,1], positive integer
    counts".  A bound of [None] leaves that side open. *)
Record predicate := Range {
  start : option Z;
  end_ : option Z;
  inclusive_start : bool;
  inclusive_end : bool
}.

(** [Range(start, end)] without keywords: the start is included, the end
    is not. *)
Definition Range2 (start end_ : option Z) : predicate :=
  Range start end_ true false.

Definition Qlt_bool (x y : Q) : bool := negb (Qle_bool y x).

(** Modelled from the spec: the range check of the framework, written as
    its two guards: a value below (or at an excluded) start is refused,
    and so is a value above (or at an excluded) end. *)
Definition Range_is_element (p : predicate) (value : Q) : bool :=
  match start p with
  | Some s =>
      if inclusive_start p
      then negb (Qlt_bool value (inject_Z s))
      else negb (Qle_bool value (inject_Z s))
  | None => true
  end
  &&
  match end_ p with
  | Some e =>
      if inclusive_end p
      then negb (Qlt_bool (inject_Z e) value)
      else negb (Qle_bool (inject_Z e) value)
  | None => true
  end.

(** Modelled from the spec: membership in the framework's primitive types.
    [Int] holds the integers, [Float] the real numbers (integers
    included), and neither holds a boolean. *)
Definition primitive_is_element (t : primitive) (v : pyvalue) : bool :=
  match t, v with
  | Int, PyInt _ => true
  | Float, PyInt _ => true
  | Float, PyFloat _ => true
  | Str, PyStr _ => true
  | Bool, PyBool _ => true
  | _, _ => false
  end.

(** Type expressions as plugin_setup.py writes them: a primitive, a
    primitive refined by a predicate ([t % p]), [List[t]],
    [MetadataColumn[c]] and the thread-count type [Threads]. *)
Inductive type_expr :=
| Prim (t : primitive)
| Refined (t : primitive) (p : predicate)
| List (t : primitive)
| MetadataColumn (c : column_type)
| Threads.

Notation "t %% p" := (Refined t p) (at level 40, no associativity).

(** Semantic (artifact) types of [q2_types]. *)
Inductive variant := SequencesWithQuality | PairedEndSequencesWithQuality.

Inductive semantic_type :=
| SampleData (v : variant)
| MultiplexedSingleEndBarcodeInSequence
| MultiplexedPairedEndBarcodeInSequence.

#[global] Instance variant_eq_dec : EqDecision variant.
Proof. solve_decision. Defined.

#[global] Instance semantic_type_eq_dec : EqDecision semantic_type.
Proof. solve_decision. Defined.

(** A reference to a Python function: where it lives and its name. *)
Record callable := { __module__ : string; __name__ : string }.

Module Method.
(** The keyword arguments of one [register_function] call. *)
Record t := {
  function : callable;
  inputs : list (string * semantic_type);
  parameters : list (string * type_expr);
  outputs : list (string * semantic_type);
  input_descriptions : list (string * string);
  parameter_descriptions : list (string * string);
  output_descriptions : list (string * string);
  name : string;
  description : string;
  examples : list (string * string)
}.
End Method.

Module Plugin.
Record t := {
  name : string;
  version : string;
  website : string;
  package : string;
  description : string;
  short_description : string;
  citations : list string;
  methods : gmap string Method.t
}.
End Plugin.

(** Modelled from the spec: the framework's registry behind
    [plugin.methods.register_function(...)], "a registration layer
    describing four operations": a method is stored under the name of its
    function, and a later registration under the same name replaces the
    earlier one. *)
Definition register_function (m : Method.t) (p : Plugin.t) : Plugin.t :=
  {| Plugin.name := Plugin.name p;
     Plugin.version := Plugin.version p;
     Plugin.website := Plugin.website p;
     Plugin.package := Plugin.package p;
     Plugin.description := Plugin.description p;
     Plugin.short_description := Plugin.short_description p;
     Plugin.citations := Plugin.citations p;
     Plugin.methods := <[ __name__ (Method.function m) := m ]> (Plugin.methods p) |}.

(** Lookup in a Python dict literal, kept as the list of its items. *)
Fixpoint assoc {A} (k : string) (d : list (string * A)) : option A :=
  match d with
  | [] => None
  | (k', a) :: d' => if String.eqb k k' then Some a else assoc k d'
  end.

(** ** plugin_setup.py *)

Definition trim_single_method : Method.t :=
  {| Method.function :=
       {| __module__ := "q2_cutadapt._trim"; __name__ := "trim_single" |};
     Method.inputs :=
      [ ("demultiplexed_sequences", SampleData SequencesWithQuality) ];
     Method.parameters :=
      [ ("adapter", List Str);
        ("front", List Str);
        ("anywhere", List Str);
        ("cut", Prim Int);
        ("error_rate", Float %% Range (Some 0) (Some 1) true true);
        ("indels", Prim Bool);
        ("times", Int %% Range2 (Some 1) None);
        ("overlap", Int %% Range2 (Some 1) None);
        ("match_read_wildcards", Prim Bool);
        ("match_adapter_wildcards", Prim Bool);
        ("minimum_length", Int %% Range2 (Some 1) None);
        ("discard_untrimmed", Prim Bool);
        ("max_expected_errors", Float %% Range2 (Some 0) None);
        ("max_n", Float %% Range2 (Some 0) None);
        ("quality_cutoff_3end", Int %% Range2 (Some 0) None);
        ("quality_cutoff_5end", Int %% Range2 (Some 0) None);
        ("quality_base", Int %% Range2 (Some 0) None);
        ("cores", Threads) ];
     Method.outputs :=
      [ ("trimmed_sequences", SampleData SequencesWithQuality) ];
     Method.input_descriptions :=
      [ ("demultiplexed_sequences",
         "The single-end sequences to be trimmed.") ];
     Method.parameter_descriptions :=
      [ ("adapter",
         lit ["Sequence of an adapter ligated to the 3' end. The ";
              "adapter and any subsequent bases are trimmed. If a `$` ";
              "is appended, the adapter is only found if it is at the ";
              "end of the read. If your sequence of interest is " +:+ dq +:+ "framed" +:+ dq +:+ " ";
              "by a 5' and a 3' adapter, use this parameter to define ";
              "a " +:+ dq +:+ "linked" +:+ dq +:+ " primer - see https://cutadapt.readthedocs.io ";
              "for complete details."]);
        ("front",
         lit ["Sequence of an adapter ligated to the 5' end. The adapter ";
              "and any preceding bases are trimmed. Partial matches at the ";
              "5' end are allowed. If a `^` character is prepended, the ";
              "adapter is only found if it is at the beginning of the ";
              "read."]);
        ("anywhere",
         lit ["Sequence of an adapter that may be ligated to the 5' or ";
              "3' end. Both types of matches as described under ";
              "`adapter` and `front` are allowed. If the first base of ";
              "the read is part of the match, the behavior is as with ";
              "`front`, otherwise as with `adapter`. This option is ";
              "mostly for rescuing failed library preparations - do ";
              "not use if you know which end your adapter was ligated ";
              "to."]);
        ("cut",
         lit ["Unconditionally remove bases from the beginning or end of each ";
              "read. Cutting is applied before adapter trimming. Use a ";
              "positive integer to remove bases from the 5' end and a negative ";
              "integer to remove bases from the 3' end."]);
        ("error_rate",
         "Maximum allowed error rate.");
        ("indels",
         "Allow insertions or deletions of bases when matching adapters.");
        ("times",
         lit ["Remove multiple occurrences of an adapter if it is ";
              "repeated, up to `times` times."]);
        ("overlap",
         lit ["Require at least `overlap` bases of overlap between read ";
              "and adapter for an adapter to be found."]);
        ("match_read_wildcards",
         "Interpret IUPAC wildcards (e.g., N) in reads.");
        ("match_adapter_wildcards",
         "Interpret IUPAC wildcards (e.g., N) in adapters.");
        ("minimum_length",
         lit ["Discard reads shorter than specified value. Note, ";
              "the cutadapt default of 0 has been overridden, ";
              "because that value produces empty sequence ";
              "records."]);
        ("discard_untrimmed",
         "Discard reads in which no adapter was found.");
        ("max_expected_errors",
         "Discard reads that exceed maximum expected erroneous nucleotides.");
        ("max_n",
         lit ["Discard reads with more than COUNT N bases. ";
              "If COUNT_or_FRACTION is a number between 0 and 1, ";
              "it is interpreted as a fraction of the read length."]);
        ("quality_cutoff_3end",
         lit ["Trim nucleotides with Phred score quality ";
              "lower than threshold from 3 prime end."]);
        ("quality_cutoff_5end",
         lit ["Trim nucleotides with Phred score quality lower than threshold ";
              "from 5 prime end."]);
        ("quality_base",
         "How the Phred score is encoded (33 or 64).");
        ("cores",
         "Number of CPU cores to use.") ];
     Method.output_descriptions :=
      [ ("trimmed_sequences",
         "The resulting trimmed sequences.") ];
     Method.name :=
      "Find and remove adapters in demultiplexed single-end sequences.";
     Method.description :=
      lit ["Search demultiplexed single-end sequences for adapters and ";
           "remove them. The parameter descriptions in this method are ";
           "adapted from the official cutadapt docs - please see those ";
           "docs at https://cutadapt.readthedocs.io for complete ";
           "details."];
     Method.examples := [] |}.

Definition trim_paired_method : Method.t :=
  {| Method.function :=
       {| __module__ := "q2_cutadapt._trim"; __name__ := "trim_paired" |};
     Method.inputs :=
      [ ("demultiplexed_sequences", SampleData PairedEndSequencesWithQuality) ];
     Method.parameters :=
      [ ("adapter_f", List Str);
        ("front_f", List Str);
        ("anywhere_f", List Str);
        ("adapter_r", List Str);
        ("front_r", List Str);
        ("anywhere_r", List Str);
        ("forward_cut", Prim Int);
        ("reverse_cut", Prim Int);
        ("error_rate", Float %% Range (Some 0) (Some 1) true true);
        ("indels", Prim Bool);
        ("times", Int %% Range2 (Some 1) None);
        ("overlap", Int %% Range2 (Some 1) None);
        ("match_read_wildcards", Prim Bool);
        ("match_adapter_wildcards", Prim Bool);
        ("minimum_length", Int %% Range2 (Some 1) None);
        ("discard_untrimmed", Prim Bool);
        ("max_expected_errors", Float %% Range2 (Some 0) None);
        ("max_n", Float %% Range2 (Some 0) None);
        ("quality_cutoff_3end", Int %% Range2 (Some 0) None);
        ("quality_cutoff_5end", Int %% Range2 (Some 0) None);
        ("quality_base", Int %% Range2 (Some 0) None);
        ("cores", Threads) ];
     Method.outputs :=
      [ ("trimmed_sequences", SampleData PairedEndSequencesWithQuality) ];
     Method.input_descriptions :=
      [ ("demultiplexed_sequences",
         "The paired-end sequences to be trimmed.") ];
     Method.parameter_descriptions :=
      [ ("adapter_f",
         lit ["Sequence of an adapter ligated to the 3' end. The ";
              "adapter and any subsequent bases are trimmed. If a `$` ";
              "is appended, the adapter is only found if it is at the ";
              "end of the read. Search in forward read. If your ";
              "sequence of interest is " +:+ dq +:+ "framed" +:+ dq +:+ " by a 5' and a 3' ";
              "adapter, use this parameter to define a " +:+ dq +:+ "linked" +:+ dq +:+ " primer ";
              "- see https://cutadapt.readthedocs.io for complete ";
              "details."]);
        ("front_f",
         lit ["Sequence of an adapter ligated to the 5' end. The ";
              "adapter and any preceding bases are trimmed. Partial ";
              "matches at the 5' end are allowed. If a `^` character ";
              "is prepended, the adapter is only found if it is at the ";
              "beginning of the read. Search in forward read."]);
        ("anywhere_f",
         lit ["Sequence of an adapter that may be ligated to the 5' ";
              "or 3' end. Both types of matches as described under ";
              "`adapter` and `front` are allowed. If the first base ";
              "of the read is part of the match, the behavior is as ";
              "with `front`, otherwise as with `adapter`. This option ";
              "is mostly for rescuing failed library preparations - ";
              "do not use if you know which end your adapter was ";
              "ligated to. Search in forward read."]);
        ("adapter_r",
         lit ["Sequence of an adapter ligated to the 3' end. The ";
              "adapter and any subsequent bases are trimmed. If a `$` ";
              "is appended, the adapter is only found if it is at the ";
              "end of the read. Search in reverse read. If your ";
              "sequence of interest is " +:+ dq +:+ "framed" +:+ dq +:+ " by a 5' and a 3' ";
              "adapter, use this parameter to define a " +:+ dq +:+ "linked" +:+ dq +:+ " primer ";
              "- see https://cutadapt.readthedocs.io for complete ";
              "details."]);
        ("front_r",
         lit ["Sequence of an adapter ligated to the 5' end. The ";
              "adapter and any preceding bases are trimmed. Partial ";
              "matches at the 5' end are allowed. If a `^` character ";
              "is prepended, the adapter is only found if it is at the ";
              "beginning of the read. Search in reverse read."]);
        ("anywhere_r",
         lit ["Sequence of an adapter that may be ligated to the 5' ";
              "or 3' end. Both types of matches as described under ";
              "`adapter` and `front` are allowed. If the first base ";
              "of the read is part of the match, the behavior is as ";
              "with `front`, otherwise as with `adapter`. This ";
              "option is mostly for rescuing failed library ";
              "preparations - do not use if you know which end your ";
              "adapter was ligated to. Search in reverse read."]);
        ("forward_cut",
         lit ["Unconditionally remove bases from the beginning or end of each ";
              "forward read. Cutting is applied before adapter trimming. Use a ";
              "positive integer to remove bases from the 5' end and a negative ";
              "integer to remove bases from the 3' end."]);
        ("reverse_cut",
         lit ["Unconditionally remove bases from the beginning or end of each ";
              "reverse read. Cutting is applied before adapter trimming. Use a ";
              "positive integer to remove bases from the 5' end and a negative ";
              "integer to remove bases from the 3' end."]);
        ("error_rate",
         "Maximum allowed error rate.");
        ("indels",
         "Allow insertions or deletions of bases when matching adapters.");
        ("times",
         lit ["Remove multiple occurrences of an adapter if it is ";
              "repeated, up to `times` times."]);
        ("overlap",
         lit ["Require at least `overlap` bases of overlap between read ";
              "and adapter for an adapter to be found."]);
        ("match_read_wildcards",
         "Interpret IUPAC wildcards (e.g., N) in reads.");
        ("match_adapter_wildcards",
         "Interpret IUPAC wildcards (e.g., N) in adapters.");
        ("minimum_length",
         lit ["Discard reads shorter than specified value. Note, ";
              "the cutadapt default of 0 has been overridden, ";
              "because that value produces empty sequence ";
              "records."]);
        ("discard_untrimmed",
         "Discard reads in which no adapter was found.");
        ("max_expected_errors",
         "Discard reads that exceed maximum expected erroneous nucleotides.");
        ("max_n",
         lit ["Discard reads with more than COUNT N bases. ";
              "If COUNT_or_FRACTION is a number between 0 and 1, ";
              "it is interpreted as a fraction of the read length."]);
        ("quality_cutoff_3end",
         lit ["Trim nucleotides with Phred score quality lower than threshold ";
              "from 3 prime end."]);
        ("quality_cutoff_5end",
         lit ["Trim nucleotides with Phred score quality lower than threshold ";
              "from 5 prime end."]);
        ("quality_base",
         "How the Phred score is encoded (33 or 64).");
        ("cores",
         "Number of CPU cores to use.") ];
     Method.output_descriptions :=
      [ ("trimmed_sequences",
         "The resulting trimmed sequences.") ];
     Method.name :=
      "Find and remove adapters in demultiplexed paired-end sequences.";
     Method.description :=
      lit ["Search demultiplexed paired-end sequences for adapters and ";
           "remove them. The parameter descriptions in this method are ";
           "adapted from the official cutadapt docs - please see those ";
           "docs at https://cutadapt.readthedocs.io for complete ";
           "details."];
     Method.examples := [] |}.

Definition demux_single_method : Method.t :=
  {| Method.function :=
       {| __module__ := "q2_cutadapt._demux"; __name__ := "demux_single" |};
     Method.inputs :=
      [ ("seqs", MultiplexedSingleEndBarcodeInSequence) ];
     Method.parameters :=
      [ ("barcodes", MetadataColumn Categorical);
        ("error_rate", Float %% Range (Some 0) (Some 1) true true);
        ("anchor_barcode", Prim Bool);
        ("batch_size", Int %% Range2 (Some 0) None);
        ("minimum_length", Int %% Range2 (Some 1) None);
        ("cut", Prim Int);
        ("cores", Threads) ];
     Method.outputs :=
      [ ("per_sample_sequences", SampleData SequencesWithQuality);
        ("untrimmed_sequences", MultiplexedSingleEndBarcodeInSequence) ];
     Method.input_descriptions :=
      [ ("seqs",
         "The single-end sequences to be demultiplexed.") ];
     Method.parameter_descriptions :=
      [ ("cores",
         "Number of CPU cores to use.");
        ("barcodes",
         lit ["The sample metadata column listing the per-sample ";
              "barcodes."]);
        ("error_rate",
         lit ["The level of error tolerance, specified as the maximum ";
              "allowable error rate. The default value specified by ";
              "cutadapt is 0.1 (=10%), which is greater than ";
              "`demux emp-*`, which is 0.0 (=0%)."]);
        ("anchor_barcode",
         lit ["Anchor the barcode. The barcode is then ";
              "expected to occur in full length at the beginning ";
              "(5' end) of the sequence. Can speed up ";
              "demultiplexing if used."]);
        ("batch_size",
         lit ["The number of samples cutadapt demultiplexes ";
              "concurrently. Demultiplexing in smaller batches will ";
              "yield the same result with marginal speed loss, and ";
              "may solve " +:+ dq +:+ "too many files" +:+ dq +:+ " errors related to sample ";
              "quantity. Set to " +:+ dq +:+ "0" +:+ dq +:+ " to process all samples at once."]);
        ("minimum_length",
         lit ["Discard reads shorter than specified value. Note, ";
              "the cutadapt default of 0 has been overridden, ";
              "because that value produces empty sequence ";
              "records."]);
        ("cut",
         lit ["Remove the specified number of bases from the sequences. ";
              "Bases are removed before demultiplexing. If a positive value ";
              "is provided, bases are removed from the beginning of the ";
              "sequences. If a negative value is provided, bases are removed ";
              "from the end of the sequences."]) ];
     Method.output_descriptions :=
      [ ("per_sample_sequences",
         "The resulting demultiplexed sequences.");
        ("untrimmed_sequences",
         lit ["The sequences that were unmatched to ";
              "barcodes."]) ];
     Method.name :=
      "Demultiplex single-end sequence data with barcodes in-sequence.";
     Method.description :=
      lit ["Demultiplex sequence data (i.e., map barcode reads to ";
           "sample ids). Barcodes are expected to be located within the ";
           "sequence data (versus the header, or a separate barcode ";
           "file)."];
     Method.examples := [ ("demux_single", "cutadapt_demux_single") ] |}.

Definition demux_paired_method : Method.t :=
  {| Method.function :=
       {| __module__ := "q2_cutadapt._demux"; __name__ := "demux_paired" |};
     Method.inputs :=
      [ ("seqs", MultiplexedPairedEndBarcodeInSequence) ];
     Method.parameters :=
      [ ("forward_barcodes", MetadataColumn Categorical);
        ("reverse_barcodes", MetadataColumn Categorical);
        ("forward_cut", Prim Int);
        ("reverse_cut", Prim Int);
        ("error_rate", Float %% Range (Some 0) (Some 1) true true);
        ("anchor_forward_barcode", Prim Bool);
        ("anchor_reverse_barcode", Prim Bool);
        ("batch_size", Int %% Range2 (Some 0) None);
        ("minimum_length", Int %% Range2 (Some 1) None);
        ("mixed_orientation", Prim Bool);
        ("cores", Threads) ];
     Method.outputs :=
      [ ("per_sample_sequences", SampleData PairedEndSequencesWithQuality);
        ("untrimmed_sequences", MultiplexedPairedEndBarcodeInSequence) ];
     Method.input_descriptions :=
      [ ("seqs",
         "The paired-end sequences to be demultiplexed.") ];
     Method.parameter_descriptions :=
      [ ("cores",
         "Number of CPU cores to use.");
        ("forward_barcodes",
         lit ["The sample metadata column listing the ";
              "per-sample barcodes for the forward reads."]);
        ("reverse_barcodes",
         lit ["The sample metadata column listing the ";
              "per-sample barcodes for the reverse reads."]);
        ("forward_cut",
         lit ["Remove the specified number of bases from the forward ";
              "sequences. Bases are removed before demultiplexing. ";
              "If a positive value is provided, bases are removed ";
              "from the beginning of the sequences. If a negative ";
              "value is provided, bases are removed from the end of ";
              "the sequences. If --p-mixed-orientation is set, then ";
              "both --p-forward-cut and --p-reverse-cut must be ";
              "set to the same value."]);
        ("reverse_cut",
         lit ["Remove the specified number of bases from the reverse ";
              "sequences. Bases are removed before demultiplexing. ";
              "If a positive value is provided, bases are removed ";
              "from the beginning of the sequences. If a negative ";
              "value is provided, bases are removed from the end of ";
              "the sequences. If --p-mixed-orientation is set, then ";
              "both --p-forward-cut and --p-reverse-cut must be ";
              "set to the same value."]);
        ("anchor_forward_barcode",
         lit ["Anchor the forward barcode. The ";
              "barcode is then expected to occur in full ";
              "length at the beginning (5' end) of the ";
              "forward sequence. Can speed up ";
              "demultiplexing if used."]);
        ("anchor_reverse_barcode",
         lit ["Anchor the reverse barcode. The ";
              "barcode is then expected to occur in full ";
              "length at the beginning (5' end) of the ";
              "reverse sequence. Can speed up ";
              "demultiplexing if used."]);
        ("error_rate",
         lit ["The level of error tolerance, specified as the maximum ";
              "allowable error rate."]);
        ("batch_size",
         lit ["The number of samples cutadapt demultiplexes ";
              "concurrently. Demultiplexing in smaller batches will ";
              "yield the same result with marginal speed loss, and ";
              "may solve " +:+ dq +:+ "too many files" +:+ dq +:+ " errors related to sample ";
              "quantity. Set to " +:+ dq +:+ "0" +:+ dq +:+ " to process all samples at once."]);
        ("minimum_length",
         lit ["Discard reads shorter than specified value. Note, ";
              "the cutadapt default of 0 has been overridden, ";
              "because that value produces empty sequence ";
              "records."]);
        ("mixed_orientation",
         lit ["Handle demultiplexing of mixed orientation ";
              "reads (i.e. when forward and reverse reads ";
              "coexist in the same file)."]) ];
     Method.output_descriptions :=
      [ ("per_sample_sequences",
         "The resulting demultiplexed sequences.");
        ("untrimmed_sequences",
         lit ["The sequences that were unmatched to ";
              "barcodes."]) ];
     Method.name :=
      "Demultiplex paired-end sequence data with barcodes in-sequence.";
     Method.description :=
      lit ["Demultiplex sequence data (i.e., map barcode reads to ";
           "sample ids). Barcodes are expected to be located within the ";
           "sequence data (versus the header, or a separate barcode ";
           "file)."];
     Method.examples := [ ("paired", "cutadapt_demux_paired") ] |}.

(** ** Outcomes of a call *)

Inductive error :=
| TypeError (parameter : string)
| KeyError (action : string)
| CalledProcessError (cmd : list string) (returncode : Z).

Inductive result (A : Type) :=
| Ok (a : A)
| Raise (e : error).
Arguments Ok {A} a.
Arguments Raise {A} e.

(** ** Artifacts *)

(** An artifact as an adapter function sees it: its semantic type and the
    directory that holds its files. *)
Record artifact := { type : semantic_type; path : string }.

(** ** A small stand-in for the tool, used in the examples *)

(** It records each command line in the files and exits with 2 when it is
    asked to demultiplex the sample s3 alone, with 0 otherwise. *)
Definition example_cutadapt (argv : list string) (f : list (list string))
    : Z * list (list string) :=
  (if existsb (String.eqb "s3") argv then 2 else 0, f ++ [argv]).

Definition example_flag (k : string) : string := "--" +:+ k.

Definition example_str (v : pyvalue) : string :=
  match v with
  | PyInt z => pretty z
  | PyFloat q => pretty (Qnum q) +:+ "/" +:+ pretty (Z.pos (Qden q))
  | PyBool b => if b then "True" else "False"
  | PyStr s => s
  | PyList _ => "[...]"
  | PyColumn _ series => String.concat "," (map fst series)
  end.

Definition example_layout (seqs : artifact) (outs : list artifact) (i : nat)
    : list string :=
  path seqs :: map path outs.

Definition example_tmp (output : string) : string := "/tmp/" +:+ output.

(** A thread count: a positive integer, or the word auto. *)
Definition example_Threads (v : pyvalue) : bool :=
  match v with
  | PyInt z => (1 <=? z)%Z
  | PyStr s => String.eqb s "auto"
  | _ => false
  end.

Definition example_barcodes : pyvalue :=
  PyColumn Categorical [("s1", "AACC"); ("s2", "GGTT"); ("s3", "ACGT")].

Section Cutadapt.

Set Default Proof Using "Type".

(** [q2_cutadapt.__version__] and the entries of citations.bib are read
    by plugin_setup.py but are not part of it. *)
Variable __version__ : string.
Variable citations_bib : list string.

(** [Plugin(...)]: a plugin without registered methods. *)
Definition Plugin_init : Plugin.t :=
  {| Plugin.name := "cutadapt";
     Plugin.version := __version__;
     Plugin.website := "https://github.com/qiime2/q2-cutadapt";
     Plugin.package := "q2_cutadapt";
     Plugin.description :=
       lit ["This QIIME 2 plugin uses cutadapt to work with ";
            "adapters (e.g. barcodes, primers) in sequence data."];
     Plugin.short_description :=
       lit ["Plugin for removing adapter sequences, primers, and ";
            "other unwanted sequence from sequence data."];
     Plugin.citations := citations_bib;
     Plugin.methods := ∅ |}.

(** The module-level statements of plugin_setup.py, in order. *)
Definition plugin : Plugin.t :=
  register_function demux_paired_method
    (register_function demux_single_method
       (register_function trim_paired_method
          (register_function trim_single_method Plugin_init))).

(** *** Checking a call against the declared schema *)

(** The element test of [Threads] belongs to the framework. *)
Variable Threads_is_element : pyvalue -> bool.

(** Modelled from the spec: the framework's element test for the type
    expressions of the registrations, "declarative range/type checks
    performed by the host framework": a refined primitive must pass the
    primitive and its [Range], the elements of a list must pass the
    primitive, a column must be a metadata column.  What the framework
    makes of an empty list is not in the sources; no property below
    rests on it. *)
Definition is_element (t : type_expr) (v : pyvalue) : bool :=
  match t with
  | Prim p => primitive_is_element p v
  | Refined p r =>
      primitive_is_element p v
      && match as_real v with
         | Some x => Range_is_element r x
         | None => false
         end
  | List p =>
      match v with
      | PyList l => forallb (primitive_is_element p) l
      | _ => false
      end
  | MetadataColumn Categorical =>
      match v with
      | PyColumn Categorical _ => true
      | _ => false
      end
  | Threads => Threads_is_element v
  end.

(** Whether method [m] accepts value [v] for its parameter [k]. *)
Definition accepts (m : Method.t) (k : string) (v : pyvalue) : bool :=
  match assoc k (Method.parameters m) with
  | Some t => is_element t v
  | None => false
  end.

(** Modelled from the spec: the framework's dispatch, which is outside
    this repository: "declarative range/type checks performed by the
    host framework before invocation".  The function behind the method
    runs only when every argument is accepted; [S] is whatever state the
    function works on. *)
Definition call {S R : Type} (m : Method.t)
    (body : list (string * pyvalue) -> S -> result R * S)
    (kwargs : list (string * pyvalue)) (s : S) : result R * S :=
  match List.find (fun kv => negb (accepts m kv.1 kv.2)) kwargs with
  | Some kv => (Raise (TypeError kv.1), s)
  | None => body kwargs s
  end.

(** *** The adapter functions behind the four methods *)

(** The registrations name [q2_cutadapt._trim.trim_single],
    [q2_cutadapt._trim.trim_paired], [q2_cutadapt._demux.demux_single]
    and [q2_cutadapt._demux.demux_paired]; their modules are absent from
    the sources.  What is the external tool's own stays
    abstract: the file system [files] it works on, the tool itself
    ([cutadapt argv fs] gives the exit code and the files it leaves),
    the flag of a parameter, the text of a value, the paths a command
    line names for an input, the outputs and the number of the
    invocation, and the directory of a new output. *)
Variable files : Type.
Variable cutadapt : list string -> files -> Z * files.
Variable flag : string -> string.
Variable str : pyvalue -> string.
Variable layout : artifact -> list artifact -> nat -> list string.
Variable tmp : string -> string.

(** The state an adapter function works on: the files, and the log of
    the subprocesses started so far with their exit codes. *)
Record world := { fs : files; subprocesses : list (list string * Z) }.

Definition M (A : Type) : Type := world -> result A * world.

Definition ret {A} (a : A) : M A := fun w => (Ok a, w).

Definition bind {A B} (c : M A) (k : A -> M B) : M B :=
  fun w =>
    match c w with
    | (Ok a, w') => k a w'
    | (Raise e, w') => (Raise e, w')
    end.

(** Modelled from the spec: the subprocess call of the absent adapter
    modules: "external tool invocation failures (non-zero exit code) ...
    are propagated as user-facing failures without local recovery or
    retry". *)
Definition run_command (cmd : list string) : M unit :=
  fun w =>
    let (returncode, fs') := cutadapt cmd (fs w) in
    let w' := {| fs := fs';
                 subprocesses := subprocesses w ++ [(cmd, returncode)] |} in
    if (returncode =? 0)%Z then (Ok tt, w')
    else (Raise (CalledProcessError cmd returncode), w').

(** Modelled from the spec: the absent adapter modules run the command
    lines they built one after the other. *)
Fixpoint run_commands (cmds : list (list string)) : M unit :=
  match cmds with
  | [] => ret tt
  | cmd :: cmds' => bind (run_command cmd) (fun _ => run_commands cmds')
  end.

(** Modelled from the spec: the argument marshaling of the absent
    adapter modules: each operation "simply maps input parameters to
    command-line flags for the external tool". *)
Definition marshal (kwargs : list (string * pyvalue)) : list string :=
  flat_map (fun kv => [flag kv.1; str kv.2]) kwargs.

(** Modelled from the spec: the command line the absent adapter modules
    build: the tool, the flags of the parameters, and the paths of "the
    external process's expected file layout". *)
Definition build_command (kwargs : list (string * pyvalue))
    (seqs : artifact) (outs : list artifact) (i : nat) : list string :=
  "cutadapt" :: marshal kwargs ++ layout seqs outs i.

(** Modelled from the spec: the absent adapter modules "wrap resulting
    files back into framework artifacts", one for each declared
    output. *)
Definition wrap (m : Method.t) : list artifact :=
  map (fun o => {| type := o.2; path := tmp o.1 |}) (Method.outputs m).

(** Modelled from the spec: the body shared by the absent adapter
    functions: run the command lines, then hand back the declared
    outputs; "each operation is a direct pass-through with validation
    and argument marshaling". *)
Definition pass_through (m : Method.t) (cmds : list (list string))
    : M (list artifact) :=
  bind (run_commands cmds) (fun _ => ret (wrap m)).

(** Modelled from the spec: the trimming functions of the absent
    [q2_cutadapt._trim]: one command line for the call. *)
Definition trim (m : Method.t) (seqs : artifact)
    (kwargs : list (string * pyvalue)) : M (list artifact) :=
  pass_through m [build_command kwargs seqs (wrap m) 0].

(** Modelled from the spec: [q2_cutadapt._trim.trim_single], absent from
    the sources. *)
Definition trim_single := trim trim_single_method.

(** Modelled from the spec: [q2_cutadapt._trim.trim_paired], absent from
    the sources. *)
Definition trim_paired := trim trim_paired_method.

(** Modelled from the spec: the "fixed-size batches" of the absent
    [q2_cutadapt._demux]: consecutive runs of [size] samples, the last
    one possibly shorter.  The fuel bounds the number of batches. *)
Fixpoint chunks {A} (fuel size : nat) (samples : list A) : list (list A) :=
  match fuel, samples with
  | S fuel', _ :: _ =>
      take size samples :: chunks fuel' size (drop size samples)
  | _, _ => []
  end.

(** Modelled from the spec: the meaning of [batch_size] in the absent
    [q2_cutadapt._demux], as the parameter's description in
    plugin_setup.py gives it: "The number of samples cutadapt
    demultiplexes concurrently", and 0 "to process all samples at
    once". *)
Definition batches {A} (batch_size : nat) (samples : list A)
    : list (list A) :=
  match batch_size with
  | O => [samples]
  | _ => chunks (length samples) batch_size samples
  end.

(** Modelled from the spec: the samples of a demultiplexing call in the
    absent [q2_cutadapt._demux]: the ids that the barcode column lists,
    "the sample metadata column listing the per-sample barcodes". *)
Definition sample_ids (kwargs : list (string * pyvalue)) (column : string)
    : list string :=
  match assoc column kwargs with
  | Some (PyColumn _ series) => map fst series
  | _ => []
  end.

(** Modelled from the spec: what the absent [q2_cutadapt._demux] hands
    to one invocation: the barcode columns cut down to the samples of
    the batch, the other parameters as they are; [batch_size] is used
    up by the batching and is no flag of the tool. *)
Definition batch_kwargs (m : Method.t) (batch : list string)
    (kwargs : list (string * pyvalue)) : list (string * pyvalue) :=
  map (fun kv =>
         match assoc kv.1 (Method.parameters m), kv.2 with
         | Some (MetadataColumn _), PyColumn c series =>
             (kv.1,
              PyColumn c
                (List.filter
                   (fun row => existsb (String.eqb row.1) batch) series))
         | _, _ => kv
         end)
      (List.filter (fun kv => negb (String.eqb kv.1 "batch_size")) kwargs).

(** Modelled from the spec: the value of [batch_size] in a call of the
    absent [q2_cutadapt._demux]; 0, "to process all samples at once",
    when it is left out. *)
Definition batch_size_of (kwargs : list (string * pyvalue)) : nat :=
  match assoc "batch_size" kwargs with
  | Some (PyInt z) => Z.to_nat z
  | _ => O
  end.

(** Modelled from the spec: the command lines of one demultiplexing
    call of the absent [q2_cutadapt._demux]: "optionally invoking the
    external tool multiple times in fixed-size batches". *)
Definition demux_commands (m : Method.t) (column : string)
    (seqs : artifact) (kwargs : list (string * pyvalue))
    : list (list string) :=
  imap (fun i batch =>
          build_command (batch_kwargs m batch kwargs) seqs (wrap m) i)
       (batches (batch_size_of kwargs) (sample_ids kwargs column)).

(** Modelled from the spec: the demultiplexing functions of the absent
    [q2_cutadapt._demux]: one command line for each batch. *)
Definition demux (m : Method.t) (column : string) (seqs : artifact)
    (kwargs : list (string * pyvalue)) : M (list artifact) :=
  pass_through m (demux_commands m column seqs kwargs).

(** Modelled from the spec: [q2_cutadapt._demux.demux_single], absent
    from the sources; its samples are those of [barcodes]. *)
Definition demux_single := demux demux_single_method "barcodes".

(** Modelled from the spec: [q2_cutadapt._demux.demux_paired], absent
    from the sources; its samples are those of [forward_barcodes]. *)
Definition demux_paired := demux demux_paired_method "forward_barcodes".

(** Modelled from the spec: the function a registration refers to,
    resolved to the modelled adapter function of that module and name. *)
Definition implementation (f : callable)
    : option (artifact -> list (string * pyvalue) -> M (list artifact)) :=
  if String.eqb (__module__ f) "q2_cutadapt._trim" then
    if String.eqb (__name__ f) "trim_single" then Some trim_single
    else if String.eqb (__name__ f) "trim_paired" then Some trim_paired
    else None
  else if String.eqb (__module__ f) "q2_cutadapt._demux" then
    if String.eqb (__name__ f) "demux_single" then Some demux_single
    else if String.eqb (__name__ f) "demux_paired" then Some demux_paired
    else None
  else None.

(** Modelled from the spec: running a registered action through the
    framework, which is outside this repository: the input artifact
    must have the declared type, the arguments must pass [call]'s
    checks, and then the function of the registration runs. *)
Definition run_action (action : string) (seqs : artifact)
    (kwargs : list (string * pyvalue)) : M (list artifact) :=
  fun w =>
    match Plugin.methods plugin !! action with
    | None => (Raise (KeyError action), w)
    | Some m =>
        match implementation (Method.function m), Method.inputs m with
        | Some f, [(input, t)] =>
            if bool_decide (type seqs = t)
            then call m (f seqs) kwargs w
            else (Raise (TypeError input), w)
        | _, _ => (Raise (KeyError action), w)
        end
    end.

(** *** Reading the schemas *)

(** Whether every declared name has a non-empty description. *)
Definition described {A} (declared : list (string * A))
    (descriptions : list (string * string)) : bool :=
  forallb (fun d =>
             match assoc d.1 descriptions with
             | Some s => negb (String.eqb s EmptyString)
             | None => false
             end)
          declared.

(** Whether no key is written twice in a dict literal, so that [assoc]
    reads it as Python does. *)
Definition distinct_keys {A} (d : list (string * A)) : bool :=
  bool_decide (NoDup (map fst d)).

(** A method with a name, a description, and a description of each of
    its inputs, parameters and outputs. *)
Definition documented (m : Method.t) : bool :=
  negb (String.eqb (Method.name m) EmptyString)
  && negb (String.eqb (Method.description m) EmptyString)
  && described (Method.inputs m) (Method.input_descriptions m)
  && described (Method.parameters m) (Method.parameter_descriptions m)
  && described (Method.outputs m) (Method.output_descriptions m).

Definition trimming : list string := ["trim_single"; "trim_paired"].
Definition demultiplexing : list string := ["demux_single"; "demux_paired"].
Definition single_end : list string := ["trim_single"; "demux_single"].
Definition paired_end : list string := ["trim_paired"; "demux_paired"].
Definition cut_parameters : list string :=
  ["cut"; "forward_cut"; "reverse_cut"].
Definition count_parameters : list string :=
  ["times"; "overlap"; "minimum_length"].

(** What the tool leaves behind when the command lines run in turn. *)
Definition tool_output (cmds : list (list string)) (f : files) : files :=
  foldl (fun f cmd => (cutadapt cmd f).2) f cmds.

(** Log entries of subprocesses that exited with 0. *)
Definition succeeded (cmds : list (list string)) : list (list string * Z) :=
  map (fun cmd => (cmd, 0)) cmds.

(** A command line built for the call: it names the paths of the input
    and of the declared outputs, and carries every argument that is
    neither [batch_size] nor a metadata column as it was supplied. *)
Definition built_for (m : Method.t) (seqs : artifact)
    (kwargs : list (string * pyvalue)) (cmd : list string) : Prop :=
  exists kw i,
    cmd = build_command kw seqs (wrap m) i
    /\ forall k v,
         In (k, v) kwargs -> k <> "batch_size" ->
         (forall c, assoc k (Method.parameters m) <> Some (MetadataColumn c)) ->
         In (k, v) kw.

(** *** More of the schemas *)

#[global] Instance primitive_eq_dec : EqDecision primitive.
Proof. solve_decision. Defined.

#[global] Instance column_type_eq_dec : EqDecision column_type.
Proof. solve_decision. Defined.

#[global] Instance predicate_eq_dec : EqDecision predicate.
Proof. solve_decision. Defined.

#[global] Instance type_expr_eq_dec : EqDecision type_expr.
Proof. solve_decision. Defined.

(** The read filters of the trimming methods that take a number from 0
    on, and their quality settings that take an integer from 0 on. *)
Definition read_filters : list string := ["max_expected_errors"; "max_n"].
Definition quality_parameters : list string :=
  ["quality_cutoff_3end"; "quality_cutoff_5end"; "quality_base"].

(** The adapter lists of the single-end and of the paired-end trimming. *)
Definition single_adapters : list string := ["adapter"; "front"; "anywhere"].
Definition paired_adapters : list string :=
  ["adapter_f"; "front_f"; "anywhere_f"; "adapter_r"; "front_r"; "anywhere_r"].

(** The switches of the trimming methods and of the paired-end
    demultiplexing; single-end demultiplexing has [anchor_barcode]. *)
Definition trim_switches : list string :=
  ["indels"; "match_read_wildcards"; "match_adapter_wildcards";
   "discard_untrimmed"].
Definition demux_paired_switches : list string :=
  ["anchor_forward_barcode"; "anchor_reverse_barcode"; "mixed_orientation"].

(** The names under which a paired-end method declares a parameter of
    its single-end sibling: one for the forward and one for the reverse
    read where the reads are treated apart, the same name otherwise. *)
Definition paired_names (k : string) : list string :=
  if existsb (String.eqb k) single_adapters then [k +:+ "_f"; k +:+ "_r"]
  else if String.eqb k "cut" then ["forward_cut"; "reverse_cut"]
  else if String.eqb k "barcodes"
  then ["forward_barcodes"; "reverse_barcodes"]
  else if String.eqb k "anchor_barcode"
  then ["anchor_forward_barcode"; "anchor_reverse_barcode"]
  else [k].

(** The single-end methods with their paired-end siblings. *)
Definition siblings : list (Method.t * Method.t) :=
  [(trim_single_method, trim_paired_method);
   (demux_single_method, demux_paired_method)].

(** The barcode column whose ids are the samples of a demultiplexing
    method, as the modelled [demux_single] and [demux_paired] take
    them. *)
Definition sample_column (action : string) : string :=
  if String.eqb action "demux_single" then "barcodes"
  else "forward_barcodes".

(** Whether a type puts no upper limit on a number. *)
Definition open_ended (t : type_expr) : bool :=
  match t with
  | Refined _ r => match end_ r with None => true | Some _ => false end
  | Threads => false
  | _ => true
  end.

(** The trimming method that takes the reads of a demultiplexing method:
    the one for reads of the same kind. *)
Definition trims_after (action : string) : string :=
  if String.eqb action "demux_single" then "trim_single" else "trim_paired".

(** ** Lemmas *)

Lemma plugin_methods_inv (action : string) (m : Method.t) :
  Plugin.methods plugin !! action = Some m ->
  (action = "trim_single" /\ m = trim_single_method)
  \/ (action = "trim_paired" /\ m = trim_paired_method)
  \/ (action = "demux_single" /\ m = demux_single_method)
  \/ (action = "demux_paired" /\ m = demux_paired_method).
Proof.
  unfold plugin, register_function; cbn [Plugin.methods Plugin_init].
  cbn [__name__ Method.function demux_paired_method demux_single_method
       trim_paired_method trim_single_method].
  rewrite !lookup_insert.
  repeat case_decide; subst; rewrite ?lookup_empty; intros Hm;
    try discriminate Hm; injection Hm as <-; auto 8.
Qed.

Ltac four_methods H :=
  destruct (plugin_methods_inv _ _ H)
    as [[-> ->]|[[-> ->]|[[-> ->]|[-> ->]]]].

Lemma not_Qlt_bool_iff (x y : Q) : negb (Qlt_bool x y) = true <-> (y <= x)%Q.
Proof.
  unfold Qlt_bool. rewrite negb_involutive. apply Qle_bool_iff.
Qed.

Lemma Range_closed (s e : Z) (x : Q) :
  Range_is_element (Range (Some s) (Some e) true true) x = true
  <-> (inject_Z s <= x <= inject_Z e)%Q.
Proof.
  unfold Range_is_element; cbn [start end_ inclusive_start inclusive_end].
  rewrite andb_true_iff, !not_Qlt_bool_iff. reflexivity.
Qed.

Lemma Range2_from (s : Z) (x : Q) :
  Range_is_element (Range2 (Some s) None) x = true <-> (inject_Z s <= x)%Q.
Proof.
  unfold Range_is_element, Range2;
    cbn [start end_ inclusive_start inclusive_end].
  rewrite andb_true_r. apply not_Qlt_bool_iff.
Qed.

Lemma Float_is_element (v : pyvalue) :
  primitive_is_element Float v = true <-> exists x, as_real v = Some x.
Proof.
  split.
  - destruct v; cbn; intros H; try discriminate; eexists; reflexivity.
  - intros [x H]. destruct v; cbn in *; try discriminate; reflexivity.
Qed.

Lemma Int_is_element (v : pyvalue) :
  primitive_is_element Int v = true <-> exists z, v = PyInt z.
Proof.
  split.
  - destruct v; cbn; intros H; try discriminate; eexists; reflexivity.
  - intros [x H]. destruct v; cbn in *; try discriminate; reflexivity.
Qed.

Lemma Int_from_is_element (s : Z) (v : pyvalue) :
  is_element (Int %% Range2 (Some s) None) v = true
  <-> exists z, v = PyInt z /\ s <= z.
Proof.
  cbn [is_element]. rewrite andb_true_iff, Int_is_element. split.
  - intros [[z ->] H]. cbn [as_real] in H.
    apply Range2_from in H. rewrite <- Zle_Qle in H. eauto.
  - intros [z [-> H]]. split; [eauto|]. cbn [as_real].
    apply Range2_from. rewrite <- Zle_Qle. exact H.
Qed.

Lemma Float_closed_is_element (s e : Z) (v : pyvalue) :
  is_element (Float %% Range (Some s) (Some e) true true) v = true
  <-> exists x, as_real v = Some x /\ (inject_Z s <= x <= inject_Z e)%Q.
Proof.
  cbn [is_element]. rewrite andb_true_iff, Float_is_element. split.
  - intros [[x Hx] H]. rewrite Hx in H. apply Range_closed in H. eauto.
  - intros [x [Hx H]]. split; [eauto|]. rewrite Hx. apply Range_closed, H.
Qed.

(** A refused argument stops the call before the function runs. *)
Lemma call_rejected {S R : Type} (m : Method.t)
    (body : list (string * pyvalue) -> S -> result R * S)
    (kwargs : list (string * pyvalue)) (s : S) (k : string) (v : pyvalue) :
  In (k, v) kwargs -> accepts m k v = false ->
  exists k', call m body kwargs s = (Raise (TypeError k'), s).
Proof.
  intros Hin Hno. unfold call.
  destruct (List.find _ kwargs) as [kv|] eqn:E; [eauto|].
  eapply find_none in E; [|exact Hin]. cbn in E.
  rewrite Hno in E. discriminate.
Qed.

Lemma call_inv {S R : Type} (m : Method.t)
    (body : list (string * pyvalue) -> S -> result R * S)
    (kwargs : list (string * pyvalue)) (s s' : S) (r : result R) :
  call m body kwargs s = (r, s') ->
  (exists k, r = Raise (TypeError k) /\ s' = s)
  \/ ((forall k v, In (k, v) kwargs -> accepts m k v = true)
      /\ body kwargs s = (r, s')).
Proof.
  unfold call. destruct (List.find _ kwargs) as [kv|] eqn:E.
  - intros [= <- <-]. eauto.
  - intros H. right. split; [|exact H]. intros k v Hin.
    eapply find_none in E; [|exact Hin]. cbn in E.
    now apply negb_false_iff in E.
Qed.

(** *** The batches *)

Lemma chunks_concat {A} (fuel size : nat) (samples : list A) :
  (0 < size)%nat -> (length samples <= fuel)%nat ->
  concat (chunks fuel size samples) = samples.
Proof.
  intros Hsize. revert samples.
  induction fuel as [|fuel IH]; intros [|x samples] Hfuel; cbn in *;
    try reflexivity; try lia.
  rewrite IH.
  - apply take_drop.
  - rewrite length_drop. cbn. lia.
Qed.

Lemma chunks_bounded {A} (fuel size : nat) (samples : list A) :
  (0 < size)%nat ->
  Forall (fun batch => (0 < length batch <= size)%nat)
         (chunks fuel size samples).
Proof.
  intros Hsize. revert samples.
  induction fuel as [|fuel IH]; intros [|x samples]; cbn;
    try apply Forall_nil_2.
  apply Forall_cons_2; [|apply IH].
  destruct size as [|size]; [lia|]. cbn. rewrite length_take. lia.
Qed.

(** *** The subprocess log *)

Lemma run_commands_inv (cmds : list (list string)) :
  forall (w w' : world) (r : result unit),
    run_commands cmds w = (r, w') ->
    (r = Ok tt
     /\ subprocesses w' = subprocesses w ++ succeeded cmds
     /\ fs w' = tool_output cmds (fs w))
    \/ (exists pre cmd post returncode,
           cmds = pre ++ cmd :: post
           /\ returncode <> 0
           /\ r = Raise (CalledProcessError cmd returncode)
           /\ subprocesses w'
              = subprocesses w ++ succeeded pre ++ [(cmd, returncode)]
           /\ cutadapt cmd (tool_output pre (fs w)) = (returncode, fs w')).
Proof.
  induction cmds as [|c cmds IH]; intros w w' r.
  - cbn. intros [= <- <-]. left. now rewrite app_nil_r.
  - cbn [run_commands]. unfold bind at 1, run_command at 1.
    destruct (cutadapt c (fs w)) as [rc f'] eqn:Etool.
    destruct (Z.eqb_spec rc 0) as [->|Hrc].
    + intros H. apply IH in H. cbn [fs subprocesses] in H.
      assert (Estep : tool_output (c :: cmds) (fs w) = tool_output cmds f').
      { unfold tool_output. cbn. now rewrite Etool. }
      destruct H as [(-> & Hlog & Hfs)
                    |(pre & cmd & post & rc & -> & Hrc & -> & Hlog & Hrun)].
      * left. split; [reflexivity|]. rewrite Hlog, Estep.
        split; [|exact Hfs]. now rewrite <- app_assoc.
      * right. exists (c :: pre), cmd, post, rc.
        split; [reflexivity|]. split; [exact Hrc|].
        split; [reflexivity|]. split.
        -- rewrite Hlog. now rewrite <- app_assoc.
        -- revert Hrun. unfold tool_output. cbn. now rewrite Etool.
    + intros [= <- <-]. right. exists [], c, cmds, rc. cbn.
      repeat split; try assumption; reflexivity.
Qed.

Lemma pass_through_inv (m : Method.t) (cmds : list (list string))
    (w w' : world) (r : result (list artifact)) :
  pass_through m cmds w = (r, w') ->
  (r = Ok (wrap m)
   /\ subprocesses w' = subprocesses w ++ succeeded cmds
   /\ fs w' = tool_output cmds (fs w))
  \/ (exists pre cmd post returncode,
         cmds = pre ++ cmd :: post
         /\ returncode <> 0
         /\ r = Raise (CalledProcessError cmd returncode)
         /\ subprocesses w'
            = subprocesses w ++ succeeded pre ++ [(cmd, returncode)]
         /\ cutadapt cmd (tool_output pre (fs w)) = (returncode, fs w')).
Proof.
  unfold pass_through, bind.
  destruct (run_commands cmds w) as [[[]|e] w1] eqn:E;
    intros [= <- <-]; apply run_commands_inv in E;
    destruct E as [(Hr & Hlog & Hfs)
                  |(pre & cmd & post & rc & -> & Hrc & Hr & Hlog & Hrun)];
    try discriminate.
  - left. repeat split; assumption.
  - right. exists pre, cmd, post, rc.
    injection Hr as ->.
    split; [reflexivity|]. split; [exact Hrc|]. split; [reflexivity|].
    split; assumption.
Qed.

(** *** Marshaling *)

Lemma marshal_In (kwargs : list (string * pyvalue)) (k : string)
    (v : pyvalue) :
  In (k, v) kwargs ->
  exists before after, marshal kwargs = before ++ flag k :: str v :: after.
Proof.
  intros Hin. apply in_split in Hin as (l1 & l2 & ->).
  exists (marshal l1), (marshal l2). unfold marshal.
  now rewrite flat_map_app.
Qed.

Lemma batch_kwargs_In (m : Method.t) (batch : list string)
    (kwargs : list (string * pyvalue)) (k : string) (v : pyvalue) :
  In (k, v) kwargs -> k <> "batch_size" ->
  (forall c, assoc k (Method.parameters m) <> Some (MetadataColumn c)) ->
  In (k, v) (batch_kwargs m batch kwargs).
Proof.
  intros Hin Hk Hcol. unfold batch_kwargs. apply in_map_iff.
  exists (k, v). split.
  - cbn. destruct (assoc k (Method.parameters m)) as [[| | |c|]|] eqn:E;
      try reflexivity.
    now destruct (Hcol c).
  - apply filter_In. split; [exact Hin|]. cbn.
    apply negb_true_iff, String.eqb_neq, Hk.
Qed.

Lemma trim_built (m : Method.t) (seqs : artifact)
    (kwargs : list (string * pyvalue)) :
  Forall (built_for m seqs kwargs) [build_command kwargs seqs (wrap m) 0].
Proof.
  apply Forall_cons_2; [|apply Forall_nil_2].
  exists kwargs, O. split; [reflexivity|]. auto.
Qed.

Lemma demux_built (m : Method.t) (column : string) (seqs : artifact)
    (kwargs : list (string * pyvalue)) :
  Forall (built_for m seqs kwargs) (demux_commands m column seqs kwargs).
Proof.
  apply Forall_forall. intros cmd Hin. unfold demux_commands in Hin.
  apply elem_of_lookup_imap in Hin as (i & batch & -> & _).
  exists (batch_kwargs m batch kwargs), i. split; [reflexivity|].
  intros k v. apply batch_kwargs_In.
Qed.

(** *** A registered action, from the framework's checks to the log *)

Lemma run_action_inv (action : string) (seqs : artifact)
    (kwargs : list (string * pyvalue)) (w w' : world)
    (r : result (list artifact)) :
  run_action action seqs kwargs w = (r, w') ->
  (w' = w
   /\ exists e, r = Raise e
                /\ forall cmd returncode,
                     e <> CalledProcessError cmd returncode)
  \/ (exists m cmds,
         Plugin.methods plugin !! action = Some m
         /\ (forall k v, In (k, v) kwargs -> accepts m k v = true)
         /\ Forall (built_for m seqs kwargs) cmds
         /\ pass_through m cmds w = (r, w')).
Proof.
  unfold run_action.
  destruct (Plugin.methods plugin !! action) as [m|] eqn:Em.
  2:{ intros [= <- <-]. left. split; [reflexivity|].
      eexists. split; [reflexivity|]. discriminate. }
  four_methods Em; cbn [implementation Method.function Method.inputs
                        trim_single_method trim_paired_method
                        demux_single_method demux_paired_method
                        __module__ __name__ String.eqb Ascii.eqb Bool.eqb];
    (case_bool_decide;
     [|intros [= <- <-]; left; split; [reflexivity|];
       eexists; split; [reflexivity|]; discriminate]);
    intros Hc; apply call_inv in Hc as [(k & -> & ->)|[Hacc Hbody]];
    try (left; split; [reflexivity|];
         eexists; split; [reflexivity|]; discriminate);
    right.
  - exists trim_single_method, [build_command kwargs seqs (wrap trim_single_method) 0].
    auto using trim_built.
  - exists trim_paired_method, [build_command kwargs seqs (wrap trim_paired_method) 0].
    auto using trim_built.
  - exists demux_single_method,
      (demux_commands demux_single_method "barcodes" seqs kwargs).
    auto using demux_built.
  - exists demux_paired_method,
      (demux_commands demux_paired_method "forward_barcodes" seqs kwargs).
    auto using demux_built.
Qed.

Lemma log_unique (w w' : world) (log log' : list (list string * Z)) :
  subprocesses w' = subprocesses w ++ log ->
  subprocesses w' = subprocesses w ++ log' ->
  log = log'.
Proof. intros -> H. now apply app_inv_head in H. Qed.

Lemma log_unchanged (w : world) (log : list (list string * Z)) :
  subprocesses w = subprocesses w ++ log -> log = [].
Proof.
  intros H. symmetry. apply (app_inv_head (subprocesses w)).
  now rewrite app_nil_r.
Qed.

Lemma succeeded_exit (cmds : list (list string)) :
  Forall (fun entry : list string * Z => entry.2 = 0) (succeeded cmds).
Proof.
  apply Forall_forall. intros entry Hin. unfold succeeded in Hin.
  apply list_elem_of_In, in_map_iff in Hin as (c & <- & _). reflexivity.
Qed.

(** ** The properties of the specification *)

(** C6: the plugin holds exactly the four methods [trim_single],
    [trim_paired], [demux_single] and [demux_paired]: single-end and
    paired-end trimming, single-end and paired-end demultiplexing.  Each
    is stored under the name of its function, declares inputs,
    parameters and outputs, and carries a name, a description and a
    description of every input, parameter and output. *)
Theorem plugin_registers_exactly_four_methods :
  dom (Plugin.methods plugin)
    = ({[ "trim_single"; "trim_paired"; "demux_single"; "demux_paired" ]}
         : gset string)
  /\ Plugin.methods plugin !! "trim_single" = Some trim_single_method
  /\ Plugin.methods plugin !! "trim_paired" = Some trim_paired_method
  /\ Plugin.methods plugin !! "demux_single" = Some demux_single_method
  /\ Plugin.methods plugin !! "demux_paired" = Some demux_paired_method
  /\ map snd (Method.inputs trim_single_method)
       = [SampleData SequencesWithQuality]
  /\ map snd (Method.inputs trim_paired_method)
       = [SampleData PairedEndSequencesWithQuality]
  /\ map snd (Method.inputs demux_single_method)
       = [MultiplexedSingleEndBarcodeInSequence]
  /\ map snd (Method.inputs demux_paired_method)
       = [MultiplexedPairedEndBarcodeInSequence]
  /\ forall action m,
       Plugin.methods plugin !! action = Some m ->
       __name__ (Method.function m) = action
       /\ documented m = true
       /\ distinct_keys (Method.inputs m) = true
       /\ distinct_keys (Method.parameters m) = true
       /\ distinct_keys (Method.outputs m) = true
       /\ Method.inputs m <> []
       /\ Method.parameters m <> []
       /\ Method.outputs m <> [].
Proof.
  assert (L1 : Plugin.methods plugin !! "trim_single"
               = Some trim_single_method) by reflexivity.
  assert (L2 : Plugin.methods plugin !! "trim_paired"
               = Some trim_paired_method) by reflexivity.
  assert (L3 : Plugin.methods plugin !! "demux_single"
               = Some demux_single_method) by reflexivity.
  assert (L4 : Plugin.methods plugin !! "demux_paired"
               = Some demux_paired_method) by reflexivity.
  split; [|repeat (split; [reflexivity|])].
  - apply set_eq. intros action. rewrite elem_of_dom. split.
    + rewrite !elem_of_union, !elem_of_singleton.
      intros [m Hm]. four_methods Hm; auto 8.
    + rewrite !elem_of_union, !elem_of_singleton.
      intros [[[->| ->]| ->]| ->]; eauto.
  - intros action m Hm.
    four_methods Hm; repeat split; try reflexivity; discriminate.
Qed.

(** C3: in each of the four methods [error_rate] is accepted exactly
    when it is a number of the closed interval from 0 to 1, and a call
    that supplies any other value is refused with the state untouched:
    the function behind the method, whatever it is, does not run. *)
Theorem error_rate_accepted_iff_in_unit_interval
    (action : string) (m : Method.t) :
  Plugin.methods plugin !! action = Some m ->
  (forall v,
      accepts m "error_rate" v = true
      <-> exists x, as_real v = Some x /\ (0 <= x <= 1)%Q)
  /\ (forall (S R : Type)
             (body : list (string * pyvalue) -> S -> result R * S)
             (kwargs : list (string * pyvalue)) (v : pyvalue) (s : S),
         In ("error_rate", v) kwargs ->
         (forall x, as_real v = Some x -> ~ (0 <= x <= 1)%Q) ->
         exists k, call m body kwargs s = (Raise (TypeError k), s)).
Proof.
  intros Hm.
  assert (E : assoc "error_rate" (Method.parameters m)
              = Some (Float %% Range (Some 0) (Some 1) true true))
    by (four_methods Hm; reflexivity).
  assert (A : forall v,
             accepts m "error_rate" v = true
             <-> exists x, as_real v = Some x /\ (0 <= x <= 1)%Q).
  { intros v. unfold accepts. rewrite E.
    apply (Float_closed_is_element 0 1). }
  split; [exact A|].
  intros S R body kwargs v s Hin Hout.
  apply (call_rejected m body kwargs s "error_rate" v Hin).
  destruct (accepts m "error_rate" v) eqn:Ev; [|reflexivity].
  apply A in Ev as (x & Hx & Hr). now destruct (Hout x Hx).
Qed.

(** C4: [minimum_length] is declared by all four methods, [times] and
    [overlap] by the two trimming methods; where one of them is
    declared it is accepted exactly when it is an integer of at least
    1, and a call that supplies anything else is refused with the state
    untouched. *)
Theorem count_parameters_accepted_iff_positive
    (action : string) (m : Method.t) (k : string) :
  Plugin.methods plugin !! action = Some m ->
  In k count_parameters ->
  (assoc k (Method.parameters m) <> None
   <-> k = "minimum_length" \/ In action trimming)
  /\ (assoc k (Method.parameters m) <> None ->
      (forall v, accepts m k v = true <-> exists z, v = PyInt z /\ 1 <= z)
      /\ (forall (S R : Type)
                 (body : list (string * pyvalue) -> S -> result R * S)
                 (kwargs : list (string * pyvalue)) (v : pyvalue) (s : S),
             In (k, v) kwargs ->
             (forall z, v = PyInt z -> z < 1) ->
             exists k', call m body kwargs s = (Raise (TypeError k'), s))).
Proof.
  intros Hm Hk.
  assert (E : assoc k (Method.parameters m)
              = Some (Int %% Range2 (Some 1) None)
              \/ (assoc k (Method.parameters m) = None
                  /\ k <> "minimum_length" /\ ~ In action trimming)).
  { destruct Hk as [<-|[<-|[<-|[]]]]; four_methods Hm;
      first [ left; reflexivity
            | right; split; [reflexivity|]; split; [discriminate|];
              cbn; intros [H|[H|[]]]; discriminate ]. }
  split.
  - destruct E as [E|(E & Hk' & Ha)]; rewrite E.
    + split; [|discriminate]. intros _.
      destruct Hk as [<-|[<-|[<-|[]]]]; four_methods Hm;
        first [ discriminate | left; reflexivity
              | right; cbn; auto ].
    + split; [congruence|].
      intros [H|H]; [now destruct (Hk' H)|now destruct (Ha H)].
  - intros Hdecl. destruct E as [E|[E _]]; [|congruence].
    assert (A : forall v,
               accepts m k v = true <-> exists z, v = PyInt z /\ 1 <= z).
    { intros v. unfold accepts. rewrite E. apply Int_from_is_element. }
    split; [exact A|].
    intros S R body kwargs v s Hin Hlow.
    apply (call_rejected m body kwargs s k v Hin).
    destruct (accepts m k v) eqn:Ev; [|reflexivity].
    apply A in Ev as (z & -> & Hz). specialize (Hlow z eq_refl). lia.
Qed.

Lemma batches_all {A} (samples : list A) : batches 0 samples = [samples].
Proof. reflexivity. Qed.

Lemma batches_bounded {A} (batch_size : nat) (samples : list A) :
  (0 < batch_size)%nat ->
  concat (batches batch_size samples) = samples
  /\ Forall (fun batch => (0 < length batch <= batch_size)%nat)
            (batches batch_size samples).
Proof.
  intros Hb. unfold batches. destruct batch_size as [|b]; [lia|]. split.
  - apply chunks_concat; lia.
  - apply chunks_bounded; lia.
Qed.

Lemma map_fst_succeeded (cmds : list (list string)) :
  map fst (succeeded cmds) = cmds.
Proof.
  unfold succeeded. rewrite map_map. cbn. apply map_id.
Qed.

(** A demultiplexing action either is refused before anything runs or
    runs the command lines of its batches. *)
Lemma run_action_demux_inv (action : string) (m : Method.t)
    (seqs : artifact) (kwargs : list (string * pyvalue)) (w w' : world)
    (r : result (list artifact)) :
  Plugin.methods plugin !! action = Some m ->
  In action demultiplexing ->
  run_action action seqs kwargs w = (r, w') ->
  (w' = w /\ exists e, r = Raise e)
  \/ pass_through m
       (demux_commands m (sample_column action) seqs kwargs) w
     = (r, w').
Proof.
  intros Hm Hd. unfold run_action. rewrite Hm.
  four_methods Hm; cbn in Hd;
    try (destruct Hd as [H|[H|[]]]; discriminate);
    cbn [implementation Method.function Method.inputs
         demux_single_method demux_paired_method
         __module__ __name__ String.eqb Ascii.eqb Bool.eqb];
    (case_bool_decide;
     [|intros [= <- <-]; left; split; [reflexivity|];
       eexists; reflexivity]);
    intros Hc; apply call_inv in Hc as [(k & -> & ->)|[_ Hbody]];
    first [ left; split; [reflexivity|]; eexists; reflexivity
          | right; exact Hbody ].
Qed.


(** C9: in every method the parameters declared with a bare [Int] or
    [Float] are exactly [cut], [forward_cut] and [reverse_cut]; every
    other parameter built on [Int] or [Float] carries a [Range] with a
    start.  [cut] is declared by the two single-end methods,
    [forward_cut] and [reverse_cut] by the two paired-end ones; where
    declared each is a bare [Int] and accepts every integer, negative,
    zero or positive. *)
Theorem cut_parameters_unconstrained (action : string) (m : Method.t) :
  Plugin.methods plugin !! action = Some m ->
  (forall k t,
      In (k, t) (Method.parameters m) ->
      (t = Prim Int \/ t = Prim Float <-> In k cut_parameters)
      /\ (forall p r, t = p %% r -> start r <> None))
  /\ (forall k,
         In k cut_parameters ->
         (assoc k (Method.parameters m) <> None
          <-> (k = "cut" /\ In action single_end)
              \/ (k <> "cut" /\ In action paired_end))
         /\ (assoc k (Method.parameters m) <> None ->
             assoc k (Method.parameters m) = Some (Prim Int)
             /\ forall z, accepts m k (PyInt z) = true)).
Proof.
  intros Hm. split.
  - intros k t Hin.
    assert (Hall : forallb
              (fun d : string * type_expr =>
                 match d.2 with
                 | Prim Int => existsb (String.eqb d.1) cut_parameters
                 | Prim Float => false
                 | Prim _ | List _ | MetadataColumn _ | Threads =>
                     negb (existsb (String.eqb d.1) cut_parameters)
                 | _ %% r =>
                     negb (existsb (String.eqb d.1) cut_parameters)
                     && match start r with Some _ => true | None => false end
                 end) (Method.parameters m) = true)
      by (four_methods Hm; reflexivity).
    rewrite forallb_forall in Hall. specialize (Hall _ Hin).
    cbn [fst snd] in Hall.
    assert (Hcut : existsb (String.eqb k) cut_parameters = true
                   <-> In k cut_parameters).
    { rewrite existsb_exists. split.
      - intros (x & Hx & Heq). apply String.eqb_eq in Heq. now subst.
      - intros H. exists k. split; [exact H|apply String.eqb_refl]. }
    destruct t as [[| | |]|p r|p|c|]; try discriminate Hall.
    1:{ split; [|intros ? ? [=]].
        split; [intros _; apply Hcut, Hall|intros _; left; reflexivity]. }
    all: split;
      [split;
       [intros [H|H]; discriminate H
       |intros H; apply Hcut in H; rewrite H in Hall; discriminate Hall]|].
    all: try (intros ? ? [=]; fail).
    intros p' r' [= <- <-]. apply andb_true_iff in Hall as [_ Hs].
    destruct (start r); [discriminate|discriminate Hs].
  - intros k Hk.
    assert (E : (assoc k (Method.parameters m) = Some (Prim Int)
                 /\ ((k = "cut" /\ In action single_end)
                     \/ (k <> "cut" /\ In action paired_end)))
                \/ (assoc k (Method.parameters m) = None
                    /\ ~ ((k = "cut" /\ In action single_end)
                          \/ (k <> "cut" /\ In action paired_end)))).
    { destruct Hk as [<-|[<-|[<-|[]]]]; four_methods Hm;
        first [ left; split; [reflexivity|];
                first [ left; split; [reflexivity|cbn; auto]
                      | right; split; [discriminate|cbn; auto] ]
              | right; split; [reflexivity|];
                intros [[H1 H2]|[H1 H2]];
                first [ discriminate H1
                      | exfalso; apply H1; reflexivity
                      | destruct H2 as [H|[H|[]]]; discriminate H ] ]. }
    destruct E as [[E Hwhere]|[E Hwhere]]; rewrite E.
    + split; [split; [auto|discriminate]|]. intros _.
      split; [reflexivity|]. intros z. unfold accepts. now rewrite E.
    + split; [|congruence].
      split; [congruence|]. intros HD. now destruct (Hwhere HD).
Qed.

(** C10: each demultiplexing method has one input, [seqs], and exactly
    two outputs, [per_sample_sequences] and [untrimmed_sequences], and
    the type of [untrimmed_sequences] is the type of [seqs]: the
    multiplexed single-end type for [demux_single], the multiplexed
    paired-end type for [demux_paired]. *)
Theorem demux_untrimmed_output_has_input_type
    (action : string) (m : Method.t) :
  Plugin.methods plugin !! action = Some m ->
  In action demultiplexing ->
  exists per_sample multiplexed,
    Method.inputs m = [("seqs", multiplexed)]
    /\ Method.outputs m = [("per_sample_sequences", per_sample);
                           ("untrimmed_sequences", multiplexed)]
    /\ multiplexed
       = (if String.eqb action "demux_single"
          then MultiplexedSingleEndBarcodeInSequence
          else MultiplexedPairedEndBarcodeInSequence).
Proof.
  intros Hm Hd.
  four_methods Hm; cbn in Hd;
    try (destruct Hd as [H|[H|[]]]; discriminate);
    eexists _, _; repeat split.
Qed.

Lemma run_commands_succeeds (cmds : list (list string)) :
  (forall cmd f, (cutadapt cmd f).1 = 0) ->
  forall w, exists w', run_commands cmds w = (Ok tt, w').
Proof.
  intros Hzero. induction cmds as [|c cmds IH]; intros w; cbn.
  - eexists. reflexivity.
  - unfold bind, run_command. specialize (Hzero c (fs w)).
    destruct (cutadapt c (fs w)) as [rc f']. cbn in Hzero. subst rc.
    cbn. apply IH.
Qed.

(** With accepted arguments, an input of the declared type and a tool
    that exits with 0, a registered action returns its outputs. *)
Lemma run_action_succeeds (action : string) (m : Method.t)
    (seqs : artifact) (kwargs : list (string * pyvalue)) (w : world) :
  Plugin.methods plugin !! action = Some m ->
  map snd (Method.inputs m) = [type seqs] ->
  (forall k v, In (k, v) kwargs -> accepts m k v = true) ->
  (forall cmd f, (cutadapt cmd f).1 = 0) ->
  exists w', run_action action seqs kwargs w = (Ok (wrap m), w').
Proof.
  intros Hm Hty Hacc Hzero. unfold run_action. rewrite Hm.
  assert (Hcall : forall body : list (string * pyvalue) -> M (list artifact),
             call m body kwargs w = body kwargs w).
  { intros body. unfold call.
    destruct (List.find _ kwargs) as [[k v]|] eqn:E; [|reflexivity].
    apply find_some in E as [Hin Hno]. cbn in Hno.
    rewrite (Hacc _ _ Hin) in Hno. discriminate. }
  assert (Hpass : forall cmds,
             exists w', pass_through m cmds w = (Ok (wrap m), w')).
  { intros cmds. unfold pass_through, bind.
    destruct (run_commands_succeeds cmds Hzero w) as [w' ->].
    eexists. reflexivity. }
  four_methods Hm; injection Hty as Hty;
    cbn [implementation Method.function Method.inputs
         trim_single_method trim_paired_method
         demux_single_method demux_paired_method
         __module__ __name__ String.eqb Ascii.eqb Bool.eqb];
    rewrite bool_decide_eq_true_2 by (symmetry; exact Hty);
    rewrite Hcall; apply Hpass.
Qed.


(** C5 (on the modelled adapter functions): if a subprocess of an
    action exits with a code other than 0, the action raises the error
    that carries this command line and code; the subprocess is the last
    one of the action, every earlier one exited with 0, and the files
    are as that subprocess left them: nothing is run again and nothing
    is run afterwards. *)
Theorem nonzero_exit_fails_without_retry
    (action : string) (seqs : artifact)
    (kwargs : list (string * pyvalue)) (w w' : world)
    (r : result (list artifact)) (log : list (list string * Z)) :
  run_action action seqs kwargs w = (r, w') ->
  subprocesses w' = subprocesses w ++ log ->
  Exists (fun entry => entry.2 <> 0) log ->
  exists pre cmd returncode,
    returncode <> 0
    /\ r = Raise (CalledProcessError cmd returncode)
    /\ log = succeeded pre ++ [(cmd, returncode)]
    /\ cutadapt cmd (tool_output pre (fs w)) = (returncode, fs w').
Proof.
  intros Hrun Hlog Hfail.
  apply run_action_inv in Hrun
    as [(-> & _)|(m & cmds & _ & _ & _ & Hpass)].
  - apply log_unchanged in Hlog. subst log. inversion Hfail.
  - apply pass_through_inv in Hpass
      as [(_ & Hlog' & _)
         |(pre & cmd & post & rc & _ & Hrc & -> & Hlog' & Htool)].
    + rewrite (log_unique _ _ _ _ Hlog Hlog') in Hfail.
      apply Exists_exists in Hfail as (entry & Hin & Hne).
      pose proof (succeeded_exit cmds) as Hz.
      rewrite Forall_forall in Hz. now destruct (Hne (Hz _ Hin)).
    + exists pre, cmd, rc. split; [exact Hrc|]. split; [reflexivity|].
      split; [|exact Htool]. exact (log_unique _ _ _ _ Hlog Hlog').
Qed.


(** ** Further properties of the registrations *)

Lemma assoc_In {A} (k : string) (d : list (string * A)) (a : A) :
  assoc k d = Some a -> In (k, a) d.
Proof.
  induction d as [|[k' a'] d IH]; cbn; [discriminate|].
  destruct (String.eqb_spec k k') as [->|_].
  - intros [= ->]. now left.
  - intros H. right. now apply IH.
Qed.

Lemma existsb_eqb_In (k : string) (l : list string) :
  existsb (String.eqb k) l = true <-> In k l.
Proof.
  rewrite existsb_exists. split.
  - intros (x & Hx & Heq). apply String.eqb_eq in Heq. now subst.
  - intros H. exists k. split; [exact H|apply String.eqb_refl].
Qed.

Lemma Float_from_is_element (s : Z) (v : pyvalue) :
  is_element (Float %% Range2 (Some s) None) v = true
  <-> exists x, as_real v = Some x /\ (inject_Z s <= x)%Q.
Proof.
  cbn [is_element]. rewrite andb_true_iff, Float_is_element. split.
  - intros [[x Hx] H]. rewrite Hx in H. apply Range2_from in H.
    exists x. now split.
  - intros [x [Hx H]]. split; [now exists x|]. rewrite Hx.
    now apply Range2_from.
Qed.

Lemma Bool_is_element (v : pyvalue) :
  primitive_is_element Bool v = true <-> exists b, v = PyBool b.
Proof.
  split.
  - destruct v; cbn; intros H; try discriminate; eexists; reflexivity.
  - intros [b ->]. reflexivity.
Qed.

Lemma Str_list_is_element (l : list pyvalue) :
  forallb (primitive_is_element Str) l = true
  <-> exists ss : list string, l = map PyStr ss.
Proof.
  induction l as [|v l IH]; cbn.
  - split; [intros _; now exists []|reflexivity].
  - rewrite andb_true_iff, IH. split.
    + intros [Hv [ss ->]]. destruct v; try discriminate Hv.
      now exists (s :: ss).
    + intros [[|s ss] Hss]; [discriminate Hss|].
      cbn in Hss. injection Hss as -> ->. split; [reflexivity|now exists ss].
Qed.

(** A call is refused when one of its arguments is outside what the
    method accepts for that parameter. *)
Lemma refused_call {S R : Type} (m : Method.t)
    (body : list (string * pyvalue) -> S -> result R * S)
    (kwargs : list (string * pyvalue)) (s : S) (k : string) (v : pyvalue)
    (P : pyvalue -> Prop) :
  (forall v, accepts m k v = true <-> P v) ->
  In (k, v) kwargs -> ~ P v ->
  exists k', call m body kwargs s = (Raise (TypeError k'), s).
Proof.
  intros HP Hin Hno. apply (call_rejected m body kwargs s k v Hin).
  destruct (accepts m k v) eqn:E; [|reflexivity].
  apply HP in E. now destruct (Hno E).
Qed.

Lemma Range_upward (r : predicate) (x y : Q) :
  end_ r = None -> (x <= y)%Q ->
  Range_is_element r x = true -> Range_is_element r y = true.
Proof.
  unfold Range_is_element. intros -> Hxy. rewrite !andb_true_r.
  destruct (start r) as [s|]; [|reflexivity].
  destruct (inclusive_start r).
  - rewrite !not_Qlt_bool_iff. intros H. now apply Qle_trans with x.
  - rewrite !negb_true_iff. intros H.
    destruct (Qle_bool y (inject_Z s)) eqn:E; [|reflexivity].
    apply Qle_bool_iff in E.
    assert (Hx : Qle_bool x (inject_Z s) = true)
      by (apply Qle_bool_iff; now apply Qle_trans with y).
    congruence.
Qed.

(** Closes a goal about listed names, or refutes a hypothesis about
    them, by comparing the strings. *)
Ltac names_differ H :=
  cbn in H;
  repeat match type of H with
         | _ \/ _ => destruct H as [H|H]
         | _ /\ _ =>
             let H1 := fresh in
             destruct H as [H1 H]; try discriminate H1; clear H1
         | False => destruct H
         | _ = _ => discriminate H
         end.

(** X1: [max_expected_errors] and [max_n] are declared by the two
    trimming methods only; there a value is accepted exactly when it is
    a number of at least 0, whole or not and however large, and a call
    that supplies a negative number or no number is refused before the
    function behind the method runs. *)
Theorem read_filters_accept_numbers_from_zero
    (action : string) (m : Method.t) (k : string) :
  Plugin.methods plugin !! action = Some m ->
  In k read_filters ->
  (assoc k (Method.parameters m) <> None <-> In action trimming)
  /\ (In action trimming ->
      (forall v,
          accepts m k v = true
          <-> exists x, as_real v = Some x /\ (0 <= x)%Q)
      /\ (forall (S R : Type)
                 (body : list (string * pyvalue) -> S -> result R * S)
                 (kwargs : list (string * pyvalue)) (v : pyvalue) (s : S),
             In (k, v) kwargs ->
             (forall x, as_real v = Some x -> (x < 0)%Q) ->
             exists k', call m body kwargs s = (Raise (TypeError k'), s))).
Proof.
  intros Hm Hk.
  assert (E : (assoc k (Method.parameters m)
               = Some (Float %% Range2 (Some 0) None)
               /\ In action trimming)
              \/ (assoc k (Method.parameters m) = None
                  /\ ~ In action trimming)).
  { destruct Hk as [<-|[<-|[]]]; four_methods Hm;
      first [ left; split; [reflexivity|cbn; auto]
            | right; split; [reflexivity|];
              intros H; solve [names_differ H] ]. }
  destruct E as [[E Ht]|[E Ht]]; rewrite E.
  - split; [split; [auto|discriminate]|]. intros _.
    assert (A : forall v,
               accepts m k v = true
               <-> exists x, as_real v = Some x /\ (0 <= x)%Q).
    { intros v. unfold accepts. rewrite E. apply (Float_from_is_element 0). }
    split; [exact A|].
    intros S R body kwargs v s Hin Hlow.
    apply (refused_call m body kwargs s k v _ A Hin).
    intros (x & Hx & H0). apply (Qlt_not_le _ _ (Hlow x Hx)), H0.
  - split; [split; [congruence|auto]|]. intros H. now destruct (Ht H).
Qed.

(** X2: [quality_cutoff_3end], [quality_cutoff_5end] and [quality_base]
    are declared by the two trimming methods only; there a value is
    accepted exactly when it is an integer of at least 0, so
    [quality_base] is not held to 33 or 64, and a call that supplies a
    negative integer or no integer is refused before the function behind
    the method runs. *)
Theorem quality_parameters_accept_integers_from_zero
    (action : string) (m : Method.t) (k : string) :
  Plugin.methods plugin !! action = Some m ->
  In k quality_parameters ->
  (assoc k (Method.parameters m) <> None <-> In action trimming)
  /\ (In action trimming ->
      (forall v, accepts m k v = true <-> exists z, v = PyInt z /\ 0 <= z)
      /\ (forall (S R : Type)
                 (body : list (string * pyvalue) -> S -> result R * S)
                 (kwargs : list (string * pyvalue)) (v : pyvalue) (s : S),
             In (k, v) kwargs ->
             (forall z, v = PyInt z -> z < 0) ->
             exists k', call m body kwargs s = (Raise (TypeError k'), s))).
Proof.
  intros Hm Hk.
  assert (E : (assoc k (Method.parameters m)
               = Some (Int %% Range2 (Some 0) None)
               /\ In action trimming)
              \/ (assoc k (Method.parameters m) = None
                  /\ ~ In action trimming)).
  { destruct Hk as [<-|[<-|[<-|[]]]]; four_methods Hm;
      first [ left; split; [reflexivity|cbn; auto]
            | right; split; [reflexivity|];
              intros H; solve [names_differ H] ]. }
  destruct E as [[E Ht]|[E Ht]]; rewrite E.
  - split; [split; [auto|discriminate]|]. intros _.
    assert (A : forall v,
               accepts m k v = true <-> exists z, v = PyInt z /\ 0 <= z).
    { intros v. unfold accepts. rewrite E. apply Int_from_is_element. }
    split; [exact A|].
    intros S R body kwargs v s Hin Hlow.
    apply (refused_call m body kwargs s k v _ A Hin).
    intros (z & -> & H0). specialize (Hlow z eq_refl). lia.
  - split; [split; [congruence|auto]|]. intros H. now destruct (Ht H).
Qed.

(** X3: the adapter parameters are declared by the trimming methods
    only, [adapter], [front] and [anywhere] by the single-end one and
    their [_f] and [_r] forms by the paired-end one, each as [List[Str]].
    A value that is accepted is a list of strings, so a bare string and
    a list that holds anything else are refused; and every list of one
    or more strings is accepted.  Whether the empty list passes is the
    framework's business and is left open here. *)
Theorem adapter_parameters_accept_lists_of_strings
    (action : string) (m : Method.t) (k : string) :
  Plugin.methods plugin !! action = Some m ->
  In k (single_adapters ++ paired_adapters) ->
  (assoc k (Method.parameters m) <> None
   <-> (In k single_adapters /\ action = "trim_single")
       \/ (In k paired_adapters /\ action = "trim_paired"))
  /\ (assoc k (Method.parameters m) <> None ->
      assoc k (Method.parameters m) = Some (List Str)
      /\ (forall v,
             accepts m k v = true ->
             exists ss : list string, v = PyList (map PyStr ss))
      /\ (forall ss : list string,
             ss <> [] -> accepts m k (PyList (map PyStr ss)) = true)).
Proof.
  intros Hm Hk.
  assert (E : (assoc k (Method.parameters m) = Some (List Str)
               /\ ((In k single_adapters /\ action = "trim_single")
                   \/ (In k paired_adapters /\ action = "trim_paired")))
              \/ (assoc k (Method.parameters m) = None
                  /\ ~ ((In k single_adapters /\ action = "trim_single")
                        \/ (In k paired_adapters
                            /\ action = "trim_paired")))).
  { cbn in Hk.
    repeat (destruct Hk as [<-|Hk]); [..|destruct Hk]; four_methods Hm;
      first [ left; split; [reflexivity|]; cbn; auto 12
            | right; split; [reflexivity|];
              intros [[H1 H2]|[H1 H2]];
              first [ discriminate H2 | solve [names_differ H1] ] ]. }
  destruct E as [[E Hwhere]|[E Hwhere]]; rewrite E.
  - split; [split; [auto|discriminate]|]. intros _.
    split; [reflexivity|]. unfold accepts. rewrite E. cbn [is_element].
    split.
    + intros v. destruct v; try discriminate. intros H.
      apply Str_list_is_element in H as [ss ->]. now exists ss.
    + intros ss _. apply Str_list_is_element. now exists ss.
  - split; [|congruence].
    split; [congruence|]. intros HD. now destruct (Hwhere HD).
Qed.

(** X4: the switches are plain [Bool] parameters: [indels],
    [match_read_wildcards], [match_adapter_wildcards] and
    [discard_untrimmed] in the two trimming methods, [anchor_barcode] in
    [demux_single], and [anchor_forward_barcode],
    [anchor_reverse_barcode] and [mixed_orientation] in [demux_paired];
    a value is accepted exactly when it is a boolean, so the integers 0
    and 1 are not. *)
Theorem switches_accept_booleans_only
    (action : string) (m : Method.t) (k : string) :
  Plugin.methods plugin !! action = Some m ->
  In k (trim_switches ++ ["anchor_barcode"] ++ demux_paired_switches) ->
  (assoc k (Method.parameters m) <> None
   <-> (In k trim_switches /\ In action trimming)
       \/ (k = "anchor_barcode" /\ action = "demux_single")
       \/ (In k demux_paired_switches /\ action = "demux_paired"))
  /\ (assoc k (Method.parameters m) <> None ->
      forall v, accepts m k v = true <-> exists b, v = PyBool b).
Proof.
  intros Hm Hk.
  assert (E : (assoc k (Method.parameters m) = Some (Prim Bool)
               /\ ((In k trim_switches /\ In action trimming)
                   \/ (k = "anchor_barcode" /\ action = "demux_single")
                   \/ (In k demux_paired_switches
                       /\ action = "demux_paired")))
              \/ (assoc k (Method.parameters m) = None
                  /\ ~ ((In k trim_switches /\ In action trimming)
                        \/ (k = "anchor_barcode"
                            /\ action = "demux_single")
                        \/ (In k demux_paired_switches
                            /\ action = "demux_paired")))).
  { cbn in Hk.
    repeat (destruct Hk as [<-|Hk]); [..|destruct Hk]; four_methods Hm;
      first [ left; split; [reflexivity|]; cbn; auto 12
            | right; split; [reflexivity|];
              intros [[H1 H2]|[[H1 H2]|[H1 H2]]];
              first [ discriminate H1 | discriminate H2
                    | solve [names_differ H1]
                    | solve [names_differ H2] ] ]. }
  destruct E as [[E Hwhere]|[E Hwhere]]; rewrite E.
  - split; [split; [auto|discriminate]|]. intros _ v.
    unfold accepts. rewrite E. apply Bool_is_element.
  - split; [|congruence].
    split; [congruence|]. intros HD. now destruct (Hwhere HD).
Qed.

Lemma open_ended_int (t : type_expr) (z z' : Z) :
  open_ended t = true -> z <= z' ->
  is_element t (PyInt z) = true -> is_element t (PyInt z') = true.
Proof.
  intros Hopen Hz. destruct t as [p|p r|p|c|]; cbn in *.
  - now destruct p.
  - destruct (end_ r) eqn:Eend; [discriminate Hopen|].
    rewrite !andb_true_iff. intros [Hp Hr]. split; [now destruct p|].
    apply (Range_upward r (inject_Z z)); [exact Eend| |exact Hr].
    now rewrite <- Zle_Qle.
  - discriminate.
  - destruct c. discriminate.
  - discriminate Hopen.
Qed.

Lemma open_ended_float (t : type_expr) (q q' : Q) :
  open_ended t = true -> (q <= q')%Q ->
  is_element t (PyFloat q) = true -> is_element t (PyFloat q') = true.
Proof.
  intros Hopen Hq. destruct t as [p|p r|p|c|]; cbn in *.
  - now destruct p.
  - destruct (end_ r) eqn:Eend; [discriminate Hopen|].
    rewrite !andb_true_iff. intros [Hp Hr]. split; [now destruct p|].
    now apply (Range_upward r q).
  - discriminate.
  - destruct c. discriminate.
  - discriminate Hopen.
Qed.

(** X5: every [Range] of the registrations includes its start, and
    [error_rate] is the only parameter whose [Range] has an end.  So for
    every parameter other than [error_rate] and [cores], in every
    method, a number that is accepted stays accepted when it is made
    larger: no count, length, cutoff or cut has an upper limit. *)
Theorem only_error_rate_has_an_upper_limit
    (action : string) (m : Method.t) :
  Plugin.methods plugin !! action = Some m ->
  (forall k p r,
      In (k, p %% r) (Method.parameters m) ->
      inclusive_start r = true
      /\ (end_ r <> None <-> k = "error_rate"))
  /\ (forall k z z',
         k <> "error_rate" -> k <> "cores" ->
         accepts m k (PyInt z) = true -> z <= z' ->
         accepts m k (PyInt z') = true)
  /\ (forall k q q',
         k <> "error_rate" -> k <> "cores" ->
         accepts m k (PyFloat q) = true -> (q <= q')%Q ->
         accepts m k (PyFloat q') = true).
Proof.
  intros Hm.
  assert (Hopen : forall k t,
             assoc k (Method.parameters m) = Some t ->
             k <> "error_rate" -> k <> "cores" -> open_ended t = true).
  { intros k t Ht Hk1 Hk2. apply assoc_In in Ht.
    assert (Hall : forallb
              (fun d : string * type_expr =>
                 String.eqb d.1 "error_rate" || String.eqb d.1 "cores"
                 || open_ended d.2) (Method.parameters m) = true)
      by (four_methods Hm; reflexivity).
    rewrite forallb_forall in Hall. specialize (Hall _ Ht).
    cbn [fst snd] in Hall.
    apply String.eqb_neq in Hk1, Hk2. now rewrite Hk1, Hk2 in Hall. }
  split; [|split].
  - intros k p r Hin.
    assert (Hall : forallb
              (fun d : string * type_expr =>
                 match d.2 with
                 | _ %% r =>
                     inclusive_start r
                     && Bool.eqb
                          (match end_ r with Some _ => true | None => false end)
                          (String.eqb d.1 "error_rate")
                 | _ => true
                 end) (Method.parameters m) = true)
      by (four_methods Hm; reflexivity).
    rewrite forallb_forall in Hall. specialize (Hall _ Hin).
    cbn [fst snd] in Hall. apply andb_true_iff in Hall as [Hs He].
    split; [exact Hs|]. apply Bool.eqb_prop in He.
    destruct (end_ r); destruct (String.eqb_spec k "error_rate");
      try discriminate He; split; congruence.
  - intros k z z' Hk1 Hk2. unfold accepts.
    destruct (assoc k (Method.parameters m)) as [t|] eqn:Et;
      [|discriminate].
    intros Hacc Hz.
    exact (open_ended_int t z z' (Hopen k t Et Hk1 Hk2) Hz Hacc).
  - intros k q q' Hk1 Hk2. unfold accepts.
    destruct (assoc k (Method.parameters m)) as [t|] eqn:Et;
      [|discriminate].
    intros Hacc Hq.
    exact (open_ended_float t q q' (Hopen k t Et Hk1 Hk2) Hq Hacc).
Qed.

(** X6: a parameter name that two methods declare has the same type in
    both, so whether a value is accepted for [error_rate],
    [minimum_length], [cores], a cut and so on does not depend on the
    method it is passed to. *)
Theorem shared_parameters_agree
    (action1 action2 : string) (m1 m2 : Method.t) (k : string)
    (t1 t2 : type_expr) :
  Plugin.methods plugin !! action1 = Some m1 ->
  Plugin.methods plugin !! action2 = Some m2 ->
  assoc k (Method.parameters m1) = Some t1 ->
  assoc k (Method.parameters m2) = Some t2 ->
  t1 = t2 /\ forall v, accepts m1 k v = accepts m2 k v.
Proof.
  intros Hm1 Hm2 H1 H2.
  assert (Hall : forallb
            (fun d : string * type_expr =>
               match assoc d.1 (Method.parameters m2) with
               | Some t => bool_decide (d.2 = t)
               | None => true
               end) (Method.parameters m1) = true)
    by (four_methods Hm1; four_methods Hm2; reflexivity).
  rewrite forallb_forall in Hall.
  specialize (Hall _ (assoc_In _ _ _ H1)). cbn [fst snd] in Hall.
  rewrite H2 in Hall. apply bool_decide_eq_true_1 in Hall.
  split; [exact Hall|]. intros v. unfold accepts. now rewrite H1, H2, Hall.
Qed.

(** X7: a paired-end method declares every parameter of its single-end
    sibling with the same type, once under the same name or twice, for
    the forward and for the reverse read; and it declares nothing else,
    but for [mixed_orientation].  So it accepts for such a parameter
    exactly the values the single-end method accepts. *)
Theorem paired_parameters_mirror_single (single paired : Method.t) :
  In (single, paired) siblings ->
  (forall k t,
      assoc k (Method.parameters single) = Some t ->
      forall k', In k' (paired_names k) ->
                 assoc k' (Method.parameters paired) = Some t)
  /\ (forall k' t,
         assoc k' (Method.parameters paired) = Some t ->
         k' = "mixed_orientation"
         \/ exists k, In k' (paired_names k)
                      /\ assoc k (Method.parameters single) = Some t)
  /\ (forall k k' v,
         assoc k (Method.parameters single) <> None ->
         In k' (paired_names k) ->
         accepts paired k' v = accepts single k v).
Proof.
  intros Hs.
  assert (Hto : forall k t,
             assoc k (Method.parameters single) = Some t ->
             forall k', In k' (paired_names k) ->
                        assoc k' (Method.parameters paired) = Some t).
  { intros k t Ht k' Hk'. apply assoc_In in Ht.
    assert (Hall : forallb
              (fun d : string * type_expr =>
                 forallb
                   (fun k' =>
                      bool_decide
                        (assoc k' (Method.parameters paired) = Some d.2))
                   (paired_names d.1))
              (Method.parameters single) = true)
      by (destruct Hs as [[= <- <-]|[[= <- <-]|[]]]; reflexivity).
    rewrite forallb_forall in Hall. specialize (Hall _ Ht).
    cbn [fst snd] in Hall. rewrite forallb_forall in Hall.
    exact (bool_decide_eq_true_1 _ (Hall _ Hk')). }
  split; [exact Hto|]. split.
  - intros k' t Ht. apply assoc_In in Ht.
    assert (Hall : forallb
              (fun d : string * type_expr =>
                 String.eqb d.1 "mixed_orientation"
                 || existsb
                      (fun s : string * type_expr =>
                         existsb (String.eqb d.1) (paired_names s.1)
                         && bool_decide
                              (assoc s.1 (Method.parameters single)
                               = Some d.2))
                      (Method.parameters single))
              (Method.parameters paired) = true)
      by (destruct Hs as [[= <- <-]|[[= <- <-]|[]]]; reflexivity).
    rewrite forallb_forall in Hall. specialize (Hall _ Ht).
    cbn [fst snd] in Hall. apply orb_true_iff in Hall as [Hmix|Hex].
    + left. now apply String.eqb_eq.
    + right. apply existsb_exists in Hex as ([k t'] & _ & Hk).
      cbn [fst snd] in Hk. apply andb_true_iff in Hk as [Hin Heq].
      exists k. split; [now apply existsb_eqb_In|].
      exact (bool_decide_eq_true_1 _ Heq).
  - intros k k' v Hdecl Hk'. unfold accepts.
    destruct (assoc k (Method.parameters single)) as [t|] eqn:Et;
      [|congruence].
    now rewrite (Hto k t Et k' Hk').
Qed.

(** X8: each trimming method has one input, [demultiplexed_sequences],
    and one output, [trimmed_sequences], of the same type: single-end
    reads for [trim_single], paired-end reads for [trim_paired].  What a
    trimming method returns can be trimmed again by the same method. *)
Theorem trimming_keeps_the_artifact_type (action : string) (m : Method.t) :
  Plugin.methods plugin !! action = Some m ->
  In action trimming ->
  exists reads,
    Method.inputs m = [("demultiplexed_sequences", reads)]
    /\ Method.outputs m = [("trimmed_sequences", reads)]
    /\ reads
       = SampleData (if String.eqb action "trim_single"
                     then SequencesWithQuality
                     else PairedEndSequencesWithQuality).
Proof.
  intros Hm Ht.
  four_methods Hm; try solve [names_differ Ht];
    eexists; repeat split.
Qed.

(** X9: the [per_sample_sequences] of a demultiplexing method have the
    type that the trimming method for reads of the same kind takes as
    input: [demux_single] feeds [trim_single], [demux_paired] feeds
    [trim_paired]. *)
Theorem demultiplexed_reads_fit_the_trimming
    (action : string) (m : Method.t) :
  Plugin.methods plugin !! action = Some m ->
  In action demultiplexing ->
  exists per_sample trim_method,
    assoc "per_sample_sequences" (Method.outputs m) = Some per_sample
    /\ Plugin.methods plugin !! trims_after action = Some trim_method
    /\ In (trims_after action) trimming
    /\ (In action single_end <-> In (trims_after action) single_end)
    /\ map snd (Method.inputs trim_method) = [per_sample].
Proof.
  intros Hm Hd.
  four_methods Hm; try solve [names_differ Hd].
  - exists (SampleData SequencesWithQuality), trim_single_method.
    repeat split; try reflexivity; cbn; auto.
  - exists (SampleData PairedEndSequencesWithQuality), trim_paired_method.
    repeat split; try reflexivity; cbn; auto;
      intros H; solve [names_differ H].
Qed.

(** X10: no two methods take the same type of input, and every output
    of every method has the input type of a registered method: an
    artifact that the plugin takes or returns is the input of exactly
    one of the four methods. *)
Theorem every_artifact_has_one_consumer :
  (forall action1 action2 m1 m2,
      Plugin.methods plugin !! action1 = Some m1 ->
      Plugin.methods plugin !! action2 = Some m2 ->
      map snd (Method.inputs m1) = map snd (Method.inputs m2) ->
      action1 = action2)
  /\ (forall action m output t,
         Plugin.methods plugin !! action = Some m ->
         In (output, t) (Method.outputs m) ->
         exists action' m',
           Plugin.methods plugin !! action' = Some m'
           /\ map snd (Method.inputs m') = [t]).
Proof.
  split.
  - intros action1 action2 m1 m2 Hm1 Hm2.
    four_methods Hm1; four_methods Hm2; cbn;
      first [ reflexivity | discriminate ].
  - intros action m output t Hm Hin.
    four_methods Hm; cbn in Hin;
      repeat (destruct Hin as [[= <- <-]|Hin]); try destruct Hin.
    + exists "trim_single", trim_single_method. now split.
    + exists "trim_paired", trim_paired_method. now split.
    + exists "trim_single", trim_single_method. now split.
    + exists "demux_single", demux_single_method. now split.
    + exists "trim_paired", trim_paired_method. now split.
    + exists "demux_paired", demux_paired_method. now split.
Qed.

(** X11: in every method the described inputs, parameters and outputs
    are exactly the declared ones: each description belongs to a
    declared name, no name is described twice and none is left out;
    the order of the descriptions need not be that of the
    declarations. *)
Theorem descriptions_match_declarations (action : string) (m : Method.t) :
  Plugin.methods plugin !! action = Some m ->
  Permutation (map fst (Method.input_descriptions m))
              (map fst (Method.inputs m))
  /\ Permutation (map fst (Method.parameter_descriptions m))
                 (map fst (Method.parameters m))
  /\ Permutation (map fst (Method.output_descriptions m))
                 (map fst (Method.outputs m)).
Proof.
  intros Hm.
  four_methods Hm; repeat split;
    apply (bool_decide_unpack _); vm_compute; exact I.
Qed.

(** X12: the barcodes are metadata columns: [barcodes] in
    [demux_single], [forward_barcodes] and [reverse_barcodes] in
    [demux_paired], and in no trimming method; a value is accepted
    exactly when it is a categorical metadata column, whatever its rows,
    so a string or a list of barcode strings is not. *)
Theorem barcodes_are_metadata_columns
    (action : string) (m : Method.t) (k : string) :
  Plugin.methods plugin !! action = Some m ->
  In k ["barcodes"; "forward_barcodes"; "reverse_barcodes"] ->
  (assoc k (Method.parameters m) <> None
   <-> (k = "barcodes" /\ action = "demux_single")
       \/ (k <> "barcodes" /\ action = "demux_paired"))
  /\ (assoc k (Method.parameters m) <> None ->
      forall v,
        accepts m k v = true
        <-> exists series, v = PyColumn Categorical series).
Proof.
  intros Hm Hk.
  assert (E : (assoc k (Method.parameters m)
               = Some (MetadataColumn Categorical)
               /\ ((k = "barcodes" /\ action = "demux_single")
                   \/ (k <> "barcodes" /\ action = "demux_paired")))
              \/ (assoc k (Method.parameters m) = None
                  /\ ~ ((k = "barcodes" /\ action = "demux_single")
                        \/ (k <> "barcodes"
                            /\ action = "demux_paired")))).
  { destruct Hk as [<-|[<-|[<-|[]]]]; four_methods Hm;
      first [ left; split; [reflexivity|];
              first [ left; split; reflexivity
                    | right; split; [discriminate|reflexivity] ]
            | right; split; [reflexivity|];
              intros [[H1 H2]|[H1 H2]];
              first [ discriminate H1 | discriminate H2
                    | exfalso; apply H1; reflexivity ] ]. }
  destruct E as [[E Hwhere]|[E Hwhere]]; rewrite E.
  - split; [split; [auto|discriminate]|]. intros _ v.
    unfold accepts. rewrite E. cbn [is_element]. split.
    + destruct v as [| | | | |c series]; try discriminate.
      destruct c. intros _. now exists series.
    + intros [series ->]. reflexivity.
  - split; [|congruence].
    split; [congruence|]. intros HD. now destruct (Hwhere HD).
Qed.

End Cutadapt.

(** ** The properties on concrete calls *)

Local Notation "'example_plugin'" := (plugin "2023.5.0" []).

Local Notation "'example_run'" :=
  (run_action "2023.5.0" [] example_Threads (list (list string))
     example_cutadapt example_flag example_str example_layout example_tmp).

Local Notation "'example_world'" :=
  {| fs := [] : list (list string); subprocesses := [] |}.

Example plugin_description :
  Plugin.description example_plugin
  = "This QIIME 2 plugin uses cutadapt to work with adapters (e.g. barcodes, primers) in sequence data.".
Proof. reflexivity. Qed.

Example error_rate_values :
  map (accepts example_Threads demux_single_method "error_rate")
      [PyFloat 0; PyFloat 1; PyInt 1; PyFloat (1 # 2); PyFloat (-1 # 100);
       PyFloat (101 # 100); PyInt 2; PyBool true; PyStr "0.1"]
  = [true; true; true; true; false; false; false; false; false].
Proof. reflexivity. Qed.

Example times_values :
  map (accepts example_Threads trim_single_method "times")
      [PyInt 1; PyInt 10; PyInt 0; PyInt (-3); PyFloat 1; PyBool true]
  = [true; true; false; false; false; false].
Proof. reflexivity. Qed.

Example batch_size_values :
  map (accepts example_Threads demux_paired_method "batch_size")
      [PyInt 0; PyInt 7; PyInt (-1); PyFloat 2]
  = [true; true; false; false]
  /\ accepts example_Threads trim_paired_method "batch_size" (PyInt 0)
     = false.
Proof. split; reflexivity. Qed.

Example cut_values :
  map (accepts example_Threads trim_single_method "cut")
      [PyInt 0; PyInt 12; PyInt (-12); PyFloat 1]
  = [true; true; true; false].
Proof. reflexivity. Qed.

Example batches_of_five :
  batches 2 ["s1"; "s2"; "s3"; "s4"; "s5"]
  = [["s1"; "s2"]; ["s3"; "s4"]; ["s5"]]
  /\ batches 0 ["s1"; "s2"; "s3"; "s4"; "s5"]
     = [["s1"; "s2"; "s3"; "s4"; "s5"]]
  /\ batches 5 ["s1"; "s2"; "s3"; "s4"; "s5"]
     = [["s1"; "s2"; "s3"; "s4"; "s5"]].
Proof. repeat split; reflexivity. Qed.

Example refused_before_the_tool_runs :
  example_run "trim_single"
    {| type := SampleData SequencesWithQuality; path := "/in" |}
    [("cores", PyInt 4); ("error_rate", PyFloat (3 # 2))] example_world
  = (Raise (TypeError "error_rate"), example_world).
Proof. vm_compute. reflexivity. Qed.

Example demux_all_at_once :
  example_run "demux_single"
    {| type := MultiplexedSingleEndBarcodeInSequence; path := "/in" |}
    [("barcodes", example_barcodes); ("batch_size", PyInt 0);
     ("cores", PyInt 4)] example_world
  = (Ok [{| type := SampleData SequencesWithQuality;
            path := "/tmp/per_sample_sequences" |};
         {| type := MultiplexedSingleEndBarcodeInSequence;
            path := "/tmp/untrimmed_sequences" |}],
     {| fs := [["cutadapt"; "--barcodes"; "s1,s2,s3"; "--cores"; "4"; "/in";
                "/tmp/per_sample_sequences"; "/tmp/untrimmed_sequences"]];
        subprocesses :=
          [(["cutadapt"; "--barcodes"; "s1,s2,s3"; "--cores"; "4"; "/in";
             "/tmp/per_sample_sequences"; "/tmp/untrimmed_sequences"], 0)]
     |}).
Proof. vm_compute. reflexivity. Qed.

Lemma error_rate_accepted_iff_in_unit_interval_witness :
  Plugin.methods example_plugin !! "trim_single" = Some trim_single_method
  /\ accepts example_Threads trim_single_method "error_rate"
       (PyFloat (1 # 10)) = true
  /\ exists k,
       call example_Threads trim_single_method
         (fun _ (s : unit) => (Ok tt, s))
         [("cores", PyInt 4); ("error_rate", PyFloat (3 # 2))] tt
       = (Raise (TypeError k), tt).
Proof.
  assert (Hm : Plugin.methods example_plugin !! "trim_single"
               = Some trim_single_method) by reflexivity.
  destruct (error_rate_accepted_iff_in_unit_interval
              "2023.5.0" [] example_Threads
              "trim_single" trim_single_method Hm) as [Hacc Hrej].
  split; [exact Hm|]. split.
  - apply Hacc. exists (1 # 10). split; [reflexivity|].
    unfold Qle. cbn. lia.
  - apply (Hrej unit unit _ _ (PyFloat (3 # 2)) tt).
    + right. left. reflexivity.
    + intros x [= <-] [_ H]. unfold Qle in H. cbn in H. lia.
Defined.

Lemma count_parameters_accepted_iff_positive_witness :
  Plugin.methods example_plugin !! "trim_paired" = Some trim_paired_method
  /\ In "overlap" count_parameters
  /\ accepts example_Threads trim_paired_method "overlap" (PyInt 3) = true
  /\ exists k,
       call example_Threads trim_paired_method
         (fun _ (s : unit) => (Ok tt, s)) [("overlap", PyInt 0)] tt
       = (Raise (TypeError k), tt).
Proof.
  assert (Hm : Plugin.methods example_plugin !! "trim_paired"
               = Some trim_paired_method) by reflexivity.
  assert (Hk : In "overlap" count_parameters) by (right; left; reflexivity).
  destruct (count_parameters_accepted_iff_positive
              "2023.5.0" [] example_Threads
              "trim_paired" trim_paired_method "overlap" Hm Hk)
    as [_ Hspec].
  destruct Hspec as [Hacc Hrej]; [discriminate|].
  split; [exact Hm|]. split; [exact Hk|]. split.
  - apply Hacc. exists 3. split; [reflexivity|lia].
  - apply (Hrej unit unit _ _ (PyInt 0) tt).
    + left. reflexivity.
    + intros z [= <-]. lia.
Defined.


Lemma cut_parameters_unconstrained_witness :
  Plugin.methods example_plugin !! "demux_paired" = Some demux_paired_method
  /\ assoc "forward_cut" (Method.parameters demux_paired_method)
     = Some (Prim Int)
  /\ accepts example_Threads demux_paired_method "forward_cut" (PyInt (-5))
     = true.
Proof.
  assert (Hm : Plugin.methods example_plugin !! "demux_paired"
               = Some demux_paired_method) by reflexivity.
  destruct (cut_parameters_unconstrained
              "2023.5.0" [] example_Threads
              "demux_paired" demux_paired_method Hm) as [_ Hcut].
  destruct (Hcut "forward_cut") as [_ Hint]; [right; left; reflexivity|].
  destruct Hint as [Hty Hacc]; [discriminate|].
  split; [exact Hm|]. split; [exact Hty|]. apply Hacc.
Defined.

Lemma demux_untrimmed_output_has_input_type_witness :
  Plugin.methods example_plugin !! "demux_paired" = Some demux_paired_method
  /\ In "demux_paired" demultiplexing
  /\ exists per_sample,
       Method.inputs demux_paired_method
       = [("seqs", MultiplexedPairedEndBarcodeInSequence)]
       /\ Method.outputs demux_paired_method
          = [("per_sample_sequences", per_sample);
             ("untrimmed_sequences", MultiplexedPairedEndBarcodeInSequence)].
Proof.
  assert (Hm : Plugin.methods example_plugin !! "demux_paired"
               = Some demux_paired_method) by reflexivity.
  assert (Hd : In "demux_paired" demultiplexing)
    by (right; left; reflexivity).
  destruct (demux_untrimmed_output_has_input_type
              "2023.5.0" [] "demux_paired" demux_paired_method Hm Hd)
    as (per_sample & multiplexed & Hin & Hout & Hty).
  cbn in Hty. subst multiplexed.
  split; [exact Hm|]. split; [exact Hd|]. exists per_sample. now split.
Defined.


Lemma nonzero_exit_fails_without_retry_witness :
  example_run "demux_single"
    {| type := MultiplexedSingleEndBarcodeInSequence; path := "/in" |}
    [("barcodes", example_barcodes); ("batch_size", PyInt 2);
     ("cores", PyInt 4)] example_world
  = (Raise (CalledProcessError
              ["cutadapt"; "--barcodes"; "s3"; "--cores"; "4"; "/in";
               "/tmp/per_sample_sequences"; "/tmp/untrimmed_sequences"] 2),
     {| fs := [["cutadapt"; "--barcodes"; "s1,s2"; "--cores"; "4"; "/in";
                "/tmp/per_sample_sequences"; "/tmp/untrimmed_sequences"];
               ["cutadapt"; "--barcodes"; "s3"; "--cores"; "4"; "/in";
                "/tmp/per_sample_sequences"; "/tmp/untrimmed_sequences"]];
        subprocesses :=
          [(["cutadapt"; "--barcodes"; "s1,s2"; "--cores"; "4"; "/in";
             "/tmp/per_sample_sequences"; "/tmp/untrimmed_sequences"], 0);
           (["cutadapt"; "--barcodes"; "s3"; "--cores"; "4"; "/in";
             "/tmp/per_sample_sequences"; "/tmp/untrimmed_sequences"], 2)]
     |})
  /\ exists pre cmd returncode,
       returncode <> 0
       /\ [(["cutadapt"; "--barcodes"; "s1,s2"; "--cores"; "4"; "/in";
             "/tmp/per_sample_sequences"; "/tmp/untrimmed_sequences"], 0);
           (["cutadapt"; "--barcodes"; "s3"; "--cores"; "4"; "/in";
             "/tmp/per_sample_sequences"; "/tmp/untrimmed_sequences"], 2)]
          = succeeded pre ++ [(cmd, returncode)].
Proof.
  assert (Hrun :
    example_run "demux_single"
      {| type := MultiplexedSingleEndBarcodeInSequence; path := "/in" |}
      [("barcodes", example_barcodes); ("batch_size", PyInt 2);
       ("cores", PyInt 4)] example_world
    = (Raise (CalledProcessError
                ["cutadapt"; "--barcodes"; "s3"; "--cores"; "4"; "/in";
                 "/tmp/per_sample_sequences"; "/tmp/untrimmed_sequences"] 2),
       {| fs := [["cutadapt"; "--barcodes"; "s1,s2"; "--cores"; "4"; "/in";
                  "/tmp/per_sample_sequences"; "/tmp/untrimmed_sequences"];
                 ["cutadapt"; "--barcodes"; "s3"; "--cores"; "4"; "/in";
                  "/tmp/per_sample_sequences"; "/tmp/untrimmed_sequences"]];
          subprocesses :=
            [(["cutadapt"; "--barcodes"; "s1,s2"; "--cores"; "4"; "/in";
               "/tmp/per_sample_sequences"; "/tmp/untrimmed_sequences"], 0);
             (["cutadapt"; "--barcodes"; "s3"; "--cores"; "4"; "/in";
               "/tmp/per_sample_sequences"; "/tmp/untrimmed_sequences"], 2)]
       |}))
    by (vm_compute; reflexivity).
  split; [exact Hrun|].
  destruct (nonzero_exit_fails_without_retry _ _ _ _ _ _ _ _ _ _ _ _ _ _ _ _
              Hrun eq_refl)
    as (pre & cmd & rc & Hrc & _ & Hlog & _).
  - apply Exists_cons_tl, Exists_cons_hd. discriminate.
  - exists pre, cmd, rc. split; [exact Hrc|exact Hlog].
Defined.


(** ** The further properties on concrete calls *)

Lemma read_filters_accept_numbers_from_zero_witness :
  Plugin.methods example_plugin !! "trim_single" = Some trim_single_method
  /\ In "max_n" read_filters
  /\ accepts example_Threads trim_single_method "max_n" (PyFloat (1 # 2))
     = true
  /\ exists k,
       call example_Threads trim_single_method
         (fun _ (s : unit) => (Ok tt, s)) [("max_n", PyFloat (-1 # 2))] tt
       = (Raise (TypeError k), tt).
Proof.
  assert (Hm : Plugin.methods example_plugin !! "trim_single"
               = Some trim_single_method) by reflexivity.
  assert (Hk : In "max_n" read_filters) by (right; left; reflexivity).
  destruct (read_filters_accept_numbers_from_zero
              "2023.5.0" [] example_Threads
              "trim_single" trim_single_method "max_n" Hm Hk)
    as [_ Hspec].
  destruct Hspec as [Hacc Hrej]; [left; reflexivity|].
  split; [exact Hm|]. split; [exact Hk|]. split.
  - apply Hacc. exists (1 # 2). split; [reflexivity|].
    unfold Qle. cbn. lia.
  - apply (Hrej unit unit _ _ (PyFloat (-1 # 2)) tt).
    + left. reflexivity.
    + intros x [= <-]. unfold Qlt. cbn. lia.
Defined.

Lemma quality_parameters_accept_integers_from_zero_witness :
  Plugin.methods example_plugin !! "trim_paired" = Some trim_paired_method
  /\ In "quality_base" quality_parameters
  /\ accepts example_Threads trim_paired_method "quality_base" (PyInt 50)
     = true
  /\ exists k,
       call example_Threads trim_paired_method
         (fun _ (s : unit) => (Ok tt, s)) [("quality_base", PyInt (-1))] tt
       = (Raise (TypeError k), tt).
Proof.
  assert (Hm : Plugin.methods example_plugin !! "trim_paired"
               = Some trim_paired_method) by reflexivity.
  assert (Hk : In "quality_base" quality_parameters)
    by (right; right; left; reflexivity).
  destruct (quality_parameters_accept_integers_from_zero
              "2023.5.0" [] example_Threads
              "trim_paired" trim_paired_method "quality_base" Hm Hk)
    as [_ Hspec].
  destruct Hspec as [Hacc Hrej]; [right; left; reflexivity|].
  split; [exact Hm|]. split; [exact Hk|]. split.
  - apply Hacc. exists 50. split; [reflexivity|lia].
  - apply (Hrej unit unit _ _ (PyInt (-1)) tt).
    + left. reflexivity.
    + intros z [= <-]. lia.
Defined.

Lemma adapter_parameters_accept_lists_of_strings_witness :
  Plugin.methods example_plugin !! "trim_paired" = Some trim_paired_method
  /\ In "front_r" (single_adapters ++ paired_adapters)
  /\ assoc "front_r" (Method.parameters trim_paired_method)
     = Some (List Str)
  /\ accepts example_Threads trim_paired_method "front_r"
       (PyList [PyStr "^ACGT"; PyStr "GGTT"]) = true
  /\ accepts example_Threads trim_paired_method "front_r" (PyStr "ACGT")
     = false
  /\ accepts example_Threads trim_paired_method "front_r"
       (PyList [PyStr "ACGT"; PyInt 3]) = false.
Proof.
  assert (Hm : Plugin.methods example_plugin !! "trim_paired"
               = Some trim_paired_method) by reflexivity.
  assert (Hk : In "front_r" (single_adapters ++ paired_adapters))
    by (cbn; auto 12).
  destruct (adapter_parameters_accept_lists_of_strings
              "2023.5.0" [] example_Threads
              "trim_paired" trim_paired_method "front_r" Hm Hk)
    as [_ Hspec].
  destruct (Hspec ltac:(discriminate)) as (Hty & Hneeds & Hacc).
  split; [exact Hm|]. split; [exact Hk|]. split; [exact Hty|].
  split; [|split].
  - apply (Hacc ["^ACGT"; "GGTT"]). discriminate.
  - destruct (accepts example_Threads trim_paired_method "front_r"
                (PyStr "ACGT")) eqn:E; [|reflexivity].
    apply Hneeds in E as [ss Hss]. discriminate Hss.
  - destruct (accepts example_Threads trim_paired_method "front_r"
                (PyList [PyStr "ACGT"; PyInt 3])) eqn:E; [|reflexivity].
    apply Hneeds in E as [ss Hss].
    destruct ss as [|s1 [|s2 ss]]; discriminate Hss.
Defined.

Lemma switches_accept_booleans_only_witness :
  Plugin.methods example_plugin !! "demux_paired" = Some demux_paired_method
  /\ In "mixed_orientation"
        (trim_switches ++ ["anchor_barcode"] ++ demux_paired_switches)
  /\ accepts example_Threads demux_paired_method "mixed_orientation"
       (PyBool true) = true
  /\ accepts example_Threads demux_paired_method "mixed_orientation"
       (PyInt 1) = false.
Proof.
  assert (Hm : Plugin.methods example_plugin !! "demux_paired"
               = Some demux_paired_method) by reflexivity.
  assert (Hk : In "mixed_orientation"
                  (trim_switches ++ ["anchor_barcode"]
                   ++ demux_paired_switches)) by (cbn; auto 12).
  destruct (switches_accept_booleans_only
              "2023.5.0" [] example_Threads
              "demux_paired" demux_paired_method "mixed_orientation" Hm Hk)
    as [_ Hacc].
  specialize (Hacc ltac:(discriminate)).
  split; [exact Hm|]. split; [exact Hk|]. split.
  - apply Hacc. now exists true.
  - destruct (accepts example_Threads demux_paired_method
                "mixed_orientation" (PyInt 1)) eqn:E; [|reflexivity].
    apply Hacc in E as [b Hb]. discriminate Hb.
Defined.

Lemma only_error_rate_has_an_upper_limit_witness :
  Plugin.methods example_plugin !! "trim_single" = Some trim_single_method
  /\ accepts example_Threads trim_single_method "times" (PyInt 1000000)
     = true.
Proof.
  assert (Hm : Plugin.methods example_plugin !! "trim_single"
               = Some trim_single_method) by reflexivity.
  destruct (only_error_rate_has_an_upper_limit
              "2023.5.0" [] example_Threads
              "trim_single" trim_single_method Hm) as (_ & Hint & _).
  split; [exact Hm|].
  apply (Hint "times" 1 1000000);
    [discriminate|discriminate|reflexivity|lia].
Defined.

Lemma shared_parameters_agree_witness :
  Plugin.methods example_plugin !! "trim_single" = Some trim_single_method
  /\ Plugin.methods example_plugin !! "demux_paired"
     = Some demux_paired_method
  /\ assoc "minimum_length" (Method.parameters trim_single_method)
     = Some (Int %% Range2 (Some 1) None)
  /\ assoc "minimum_length" (Method.parameters demux_paired_method)
     = Some (Int %% Range2 (Some 1) None)
  /\ forall v,
       accepts example_Threads trim_single_method "minimum_length" v
       = accepts example_Threads demux_paired_method "minimum_length" v.
Proof.
  assert (Hm1 : Plugin.methods example_plugin !! "trim_single"
                = Some trim_single_method) by reflexivity.
  assert (Hm2 : Plugin.methods example_plugin !! "demux_paired"
                = Some demux_paired_method) by reflexivity.
  assert (H1 : assoc "minimum_length" (Method.parameters trim_single_method)
               = Some (Int %% Range2 (Some 1) None)) by reflexivity.
  assert (H2 : assoc "minimum_length"
                 (Method.parameters demux_paired_method)
               = Some (Int %% Range2 (Some 1) None)) by reflexivity.
  destruct (shared_parameters_agree
              "2023.5.0" [] example_Threads
              "trim_single" "demux_paired"
              trim_single_method demux_paired_method "minimum_length"
              _ _ Hm1 Hm2 H1 H2) as [_ Hsame].
  repeat (split; [assumption|]). exact Hsame.
Defined.

Lemma paired_parameters_mirror_single_witness :
  In (demux_single_method, demux_paired_method) siblings
  /\ assoc "reverse_barcodes" (Method.parameters demux_paired_method)
     = Some (MetadataColumn Categorical)
  /\ forall v,
       accepts example_Threads demux_paired_method "reverse_cut" v
       = accepts example_Threads demux_single_method "cut" v.
Proof.
  assert (Hs : In (demux_single_method, demux_paired_method) siblings)
    by (right; left; reflexivity).
  destruct (paired_parameters_mirror_single
              example_Threads demux_single_method demux_paired_method Hs)
    as (Hto & _ & Hsame).
  split; [exact Hs|]. split.
  - apply (Hto "barcodes"); [reflexivity|right; left; reflexivity].
  - intros v. apply Hsame; [discriminate|right; left; reflexivity].
Defined.

Lemma trimming_keeps_the_artifact_type_witness :
  Plugin.methods example_plugin !! "trim_paired" = Some trim_paired_method
  /\ In "trim_paired" trimming
  /\ Method.inputs trim_paired_method
     = [("demultiplexed_sequences",
         SampleData PairedEndSequencesWithQuality)]
  /\ Method.outputs trim_paired_method
     = [("trimmed_sequences", SampleData PairedEndSequencesWithQuality)].
Proof.
  assert (Hm : Plugin.methods example_plugin !! "trim_paired"
               = Some trim_paired_method) by reflexivity.
  assert (Ht : In "trim_paired" trimming) by (right; left; reflexivity).
  destruct (trimming_keeps_the_artifact_type
              "2023.5.0" [] "trim_paired" trim_paired_method Hm Ht)
    as (reads & Hin & Hout & Hreads).
  cbn in Hreads. subst reads.
  split; [exact Hm|]. split; [exact Ht|]. now split.
Defined.

Lemma demultiplexed_reads_fit_the_trimming_witness :
  Plugin.methods example_plugin !! "demux_single" = Some demux_single_method
  /\ In "demux_single" demultiplexing
  /\ exists per_sample,
       assoc "per_sample_sequences" (Method.outputs demux_single_method)
       = Some per_sample
       /\ map snd (Method.inputs trim_single_method) = [per_sample].
Proof.
  assert (Hm : Plugin.methods example_plugin !! "demux_single"
               = Some demux_single_method) by reflexivity.
  assert (Hd : In "demux_single" demultiplexing) by (left; reflexivity).
  destruct (demultiplexed_reads_fit_the_trimming
              "2023.5.0" [] "demux_single" demux_single_method Hm Hd)
    as (per_sample & trim_method & Hout & Htrim & _ & _ & Hin).
  cbn in Htrim. injection Htrim as <-.
  split; [exact Hm|]. split; [exact Hd|]. exists per_sample. now split.
Defined.

Lemma descriptions_match_declarations_witness :
  Plugin.methods example_plugin !! "demux_single" = Some demux_single_method
  /\ Permutation
       ["cores"; "barcodes"; "error_rate"; "anchor_barcode"; "batch_size";
        "minimum_length"; "cut"]
       ["barcodes"; "error_rate"; "anchor_barcode"; "batch_size";
        "minimum_length"; "cut"; "cores"].
Proof.
  assert (Hm : Plugin.methods example_plugin !! "demux_single"
               = Some demux_single_method) by reflexivity.
  destruct (descriptions_match_declarations
              "2023.5.0" [] "demux_single" demux_single_method Hm)
    as (_ & Hparams & _).
  split; [exact Hm|exact Hparams].
Defined.

Lemma barcodes_are_metadata_columns_witness :
  Plugin.methods example_plugin !! "demux_single" = Some demux_single_method
  /\ In "barcodes" ["barcodes"; "forward_barcodes"; "reverse_barcodes"]
  /\ accepts example_Threads demux_single_method "barcodes"
       example_barcodes = true
  /\ accepts example_Threads demux_single_method "barcodes"
       (PyList [PyStr "AACC"; PyStr "GGTT"]) = false.
Proof.
  assert (Hm : Plugin.methods example_plugin !! "demux_single"
               = Some demux_single_method) by reflexivity.
  assert (Hk : In "barcodes"
                  ["barcodes"; "forward_barcodes"; "reverse_barcodes"])
    by (left; reflexivity).
  destruct (barcodes_are_metadata_columns
              "2023.5.0" [] example_Threads
              "demux_single" demux_single_method "barcodes" Hm Hk)
    as [_ Hacc].
  specialize (Hacc ltac:(discriminate)).
  split; [exact Hm|]. split; [exact Hk|]. split.
  - apply Hacc. eexists. reflexivity.
  - destruct (accepts example_Threads demux_single_method "barcodes"
                (PyList [PyStr "AACC"; PyStr "GGTT"])) eqn:E;
      [|reflexivity].
    apply Hacc in E as [series Hs]. discriminate Hs.
Defined.
